(** * genologics/epp.py: helpers for EPP scripts, embedded and verified

    The development follows [src/genologics/epp.py]:
    - [attach_file] copies a result file next to the running script;
    - [unique_check] insists on exactly one item;
    - [EppLogger] redirects [sys.stdout] and [sys.stderr] into a log file for
      the length of a [with] block, and may first fetch the log of an
      earlier run ([prepend_old_log]).

    The module is glue around the interpreter and its libraries, so the
    embedding has two layers.  The first one models the library calls the
    source makes (Python 3 [str] methods, [posixpath], [shutil.copy], the
    [logging] module, the [with] protocol).  The second one is the source
    itself, written in a state-and-exception monad over a [world] that holds
    the file system, the logging configuration and the stream bindings.

    Conventions of the model:
    - a Python [str] is a Rocq [string], that is, a sequence of characters
      with code points below 256; a file holds the string of its bytes;
    - a path names the node stored under the string [join cwd path]; links
      and the aliases [.], [..] and [//] are not modelled, nor are
      permission bits, so opening fails only for a missing file, a missing
      parent directory or a directory in the place of a file;
    - the remote system, the base URI and the package metadata are inputs. *)

From Stdlib Require Import ZArith Ascii String Lia.
From stdpp Require Import gmap strings list pretty.

Local Open Scope Z_scope.

(** ** Python 3 [str] methods used by the source *)

Module PyStr.

Definition code (c : ascii) : Z := Z.of_N (N_of_ascii c).

(** [str.isspace] on one character: the code points below 256 that
    CPython's [Py_UNICODE_ISSPACE] accepts. *)
Definition isspace (c : ascii) : bool :=
  let n := code c in
  ((9 <=? n) && (n <=? 13)) || ((28 <=? n) && (n <=? 32))
  || (n =? 133) || (n =? 160).

(** The line boundaries of [str.splitlines] below 256
    ([Py_UNICODE_ISLINEBREAK]): LF, VT, FF, CR, FS, GS, RS and NEL. *)
Definition islinebreak (c : ascii) : bool :=
  let n := code c in
  ((10 <=? n) && (n <=? 13)) || ((28 <=? n) && (n <=? 30)) || (n =? 133).

Definition is_empty (s : string) : bool :=
  match s with EmptyString => true | String _ _ => false end.

(** [s.rstrip()]: the longest prefix of [s] that does not end in
    whitespace. *)
Fixpoint rstrip (s : string) : string :=
  match s with
  | EmptyString => EmptyString
  | String c rest =>
      match rstrip rest with
      | EmptyString => if isspace c then EmptyString else String c EmptyString
      | String _ _ as r => String c r
      end
  end.

(** [s.splitlines()]: the lines of [s] without their boundaries.  A CR
    directly followed by LF is one boundary; a boundary at the very end
    opens no further line, every other one does, so that two boundaries
    in a row enclose an empty line. *)
Fixpoint splitlines (s : string) : list string :=
  match s with
  | EmptyString => []
  | String c rest =>
      if islinebreak c then
        EmptyString ::
          match rest with
          | String c' rest' =>
              if (code c =? 13) && (code c' =? 10)
              then splitlines rest' else splitlines rest
          | EmptyString => []
          end
      else
        match splitlines rest with
        | [] => [String c EmptyString]
        | l :: ls => String c l :: ls
        end
  end.

(** [s.startswith(p)] *)
Fixpoint startswith (p s : string) : bool :=
  match p, s with
  | EmptyString, _ => true
  | String a p', String b s' => if Ascii.eqb a b then startswith p' s' else false
  | String _ _, EmptyString => false
  end.

(** [s.endswith("/")], the only use the model has for [endswith]. *)
Fixpoint ends_with_char (c : ascii) (s : string) : bool :=
  match s with
  | EmptyString => false
  | String a EmptyString => Ascii.eqb a c
  | String _ rest => ends_with_char c rest
  end.

(** [c in s] for one character. *)
Fixpoint has_char (c : ascii) (s : string) : bool :=
  match s with
  | EmptyString => false
  | String a rest => Ascii.eqb a c || has_char c rest
  end.

(** [sub in s] *)
Fixpoint contains (sub s : string) : bool :=
  startswith sub s ||
  match s with
  | EmptyString => false
  | String _ rest => contains sub rest
  end.

(** The scan of [s.split(sep)] for a non-empty [sep]: occurrences of
    [sep] are found from left to right and do not overlap.  [skip]
    counts the characters of a separator just found that are still to
    be passed over, [cur] is the piece read so far. *)
Fixpoint split_scan (sep : string) (skip : nat) (cur : string) (s : string)
  : list string :=
  match s with
  | EmptyString => [cur]
  | String c rest =>
      match skip with
      | S k => split_scan sep k cur rest
      | O =>
          if startswith sep s
          then cur :: split_scan sep (Nat.pred (String.length sep)) EmptyString rest
          else split_scan sep O (cur +:+ String c EmptyString) rest
      end
  end.

(** [s.split(sep)]: [None] stands for the [ValueError] that an empty
    separator raises. *)
Definition split (sep s : string) : option (list string) :=
  if is_empty sep then None else Some (split_scan sep O EmptyString s).

End PyStr.

(** ** [posixpath]: the functions behind [os.path] *)

Module PosixPath.
Import PyStr.

Definition slash : ascii := "/"%char.

(** [os.path.basename(p)]: [p[p.rfind('/') + 1:]], what follows the last
    slash, or all of [p] when it has none. *)
Fixpoint basename (p : string) : string :=
  match p with
  | EmptyString => EmptyString
  | String c rest =>
      if has_char slash rest then basename rest
      else if Ascii.eqb c slash then rest else p
  end.

(** [os.path.join(a, b)]: an absolute [b] replaces [a]. *)
Definition join (a b : string) : string :=
  if startswith "/" b then b
  else if is_empty a || ends_with_char slash a then a +:+ b
  else a +:+ "/" +:+ b.

(** [p[:p.rfind('/') + 1]], the part of [p] up to its last slash. *)
Fixpoint head_part (p : string) : string :=
  match p with
  | EmptyString => EmptyString
  | String c rest => if has_char slash p then String c (head_part rest) else EmptyString
  end.

Fixpoint all_slashes (s : string) : bool :=
  match s with
  | EmptyString => true
  | String c rest => Ascii.eqb c slash && all_slashes rest
  end.

(** [head.rstrip('/')] *)
Fixpoint rstrip_slashes (s : string) : string :=
  match s with
  | EmptyString => EmptyString
  | String c rest =>
      match rstrip_slashes rest with
      | EmptyString => if Ascii.eqb c slash then EmptyString else String c EmptyString
      | String _ _ as r => String c r
      end
  end.

(** [os.path.dirname(p)] *)
Definition dirname (p : string) : string :=
  let head := head_part p in
  if all_slashes head then head else rstrip_slashes head.

End PosixPath.

(** ** Exceptions *)

(** The exception classes that the source raises, catches or can meet.
    [IOError] stands for every instance of [IOError] (in Python 3 the same
    class as [OSError]) that is not an [HTTPError]. *)
Inductive exn : Type :=
| HTTPError (status : Z)             (* requests.HTTPError *)
| IOError (what : string)
| IndexError
| ValueError (msg : string)
| EmptyError (msg : string)          (* epp.EmptyError(ValueError) *)
| NotUniqueError (msg : string)      (* epp.NotUniqueError(ValueError) *)
| UnboundLocalError (var : string)
| AttributeError (msg : string)
| DistributionNotFound (req : string)
| SystemExit (code : Z)
| OtherError (cls msg : string).

(** [isinstance(e, HTTPError)], the test of [except HTTPError]. *)
Definition is_HTTPError (e : exn) : bool :=
  match e with HTTPError _ => true | _ => false end.

(** [isinstance(e, IOError)]: since requests 2.0 an [HTTPError] is one. *)
Definition is_IOError (e : exn) : bool :=
  match e with HTTPError _ | IOError _ => true | _ => false end.

Definition is_DistributionNotFound (e : exn) : bool :=
  match e with DistributionNotFound _ => true | _ => false end.

(** [isinstance(e, ValueError)] *)
Definition is_ValueError (e : exn) : bool :=
  match e with ValueError _ | EmptyError _ | NotUniqueError _ => true | _ => false end.

(** [isinstance(e, Exception)]: [SystemExit] derives from [BaseException]
    only, which is what keeps [except Exception] from catching it. *)
Definition is_Exception (e : exn) : bool :=
  match e with SystemExit _ => false | _ => true end.

(** [str(e)] as the logging calls render an exception. *)
Definition str_of_exn (e : exn) : string :=
  match e with
  | HTTPError _ => "HTTPError"
  | IOError what => what
  | IndexError => "list index out of range"
  | ValueError m | EmptyError m | NotUniqueError m | AttributeError m => m
  | UnboundLocalError v => "local variable '" +:+ v +:+ "' referenced before assignment"
  | DistributionNotFound r => r
  | SystemExit _ => EmptyString
  | OtherError _ m => m
  end.

Inductive outcome (A : Type) : Type :=
| Return (a : A)
| Raise (e : exn).
Arguments Return {A} a.
Arguments Raise {A} e.

(** ** The world the script runs in *)

(** A node of the file system. *)
Inductive node : Type :=
| File (data : string)
| Dir.

(** [epp.StreamToLogger]: the file-like object that stands in for a stream.
    [logger] is the name of the logger it was given. *)
Record StreamToLogger : Type := {
  logger : string;
  log_level : Z;
  linebuf : string
}.

(** The terminal streams the process starts with. *)
Inductive console : Type := Stdout | Stderr.

(** What [sys.stdout] or [sys.stderr] can be bound to. *)
Inductive stream : Type :=
| Console (c : console)
| Captured (s : StreamToLogger).

(** The two format strings in play: the one [EppLogger.__init__] passes to
    [logging.basicConfig] and [logging.BASIC_FORMAT]. *)
Inductive format : Type :=
| EPP_FORMAT      (* %(asctime)s:%(levelname)s:%(name)s:%(message)s *)
| BASIC_FORMAT.   (* %(levelname)s:%(name)s:%(message)s *)

Inductive handler : Type :=
| FileHandler (baseFilename : string) (fmt : format)   (* opened in mode 'a' *)
| StreamHandler (target : stream) (fmt : format).

(** One call of a logging method: the logger's name, the level and the
    message handed over. *)
Record log_call : Type := {
  call_name : string;
  call_level : Z;
  call_msg : string
}.

Record world : Type := {
  fs : gmap string node;               (* files and directories by path *)
  cwd : string;                        (* os.getcwd() *)
  BASEURI : string;                    (* genologics.config.BASEURI *)
  distributions : gmap string string;  (* installed packages and versions *)
  now : string;                        (* the clock as %(asctime)s shows it *)
  sys_stdout : stream;
  sys_stderr : stream;
  root_handlers : list handler;        (* logging.root.handlers *)
  root_level : Z;                      (* logging.root.level *)
  shut_down : bool;                    (* logging.shutdown() has run *)
  written : list (stream * string);    (* text handlers wrote to streams *)
  calls : list log_call                (* every logging call made so far *)
}.

Definition set_fs (f : gmap string node) (w : world) : world :=
  {| fs := f; cwd := cwd w; BASEURI := BASEURI w; distributions := distributions w;
     now := now w; sys_stdout := sys_stdout w; sys_stderr := sys_stderr w;
     root_handlers := root_handlers w; root_level := root_level w;
     shut_down := shut_down w; written := written w; calls := calls w |}.

Definition set_sys_stdout (s : stream) (w : world) : world :=
  {| fs := fs w; cwd := cwd w; BASEURI := BASEURI w; distributions := distributions w;
     now := now w; sys_stdout := s; sys_stderr := sys_stderr w;
     root_handlers := root_handlers w; root_level := root_level w;
     shut_down := shut_down w; written := written w; calls := calls w |}.

Definition set_sys_stderr (s : stream) (w : world) : world :=
  {| fs := fs w; cwd := cwd w; BASEURI := BASEURI w; distributions := distributions w;
     now := now w; sys_stdout := sys_stdout w; sys_stderr := s;
     root_handlers := root_handlers w; root_level := root_level w;
     shut_down := shut_down w; written := written w; calls := calls w |}.

Definition set_root (hs : list handler) (lvl : Z) (w : world) : world :=
  {| fs := fs w; cwd := cwd w; BASEURI := BASEURI w; distributions := distributions w;
     now := now w; sys_stdout := sys_stdout w; sys_stderr := sys_stderr w;
     root_handlers := hs; root_level := lvl;
     shut_down := shut_down w; written := written w; calls := calls w |}.

Definition set_shut_down (b : bool) (w : world) : world :=
  {| fs := fs w; cwd := cwd w; BASEURI := BASEURI w; distributions := distributions w;
     now := now w; sys_stdout := sys_stdout w; sys_stderr := sys_stderr w;
     root_handlers := root_handlers w; root_level := root_level w;
     shut_down := b; written := written w; calls := calls w |}.

Definition add_written (s : stream) (text : string) (w : world) : world :=
  {| fs := fs w; cwd := cwd w; BASEURI := BASEURI w; distributions := distributions w;
     now := now w; sys_stdout := sys_stdout w; sys_stderr := sys_stderr w;
     root_handlers := root_handlers w; root_level := root_level w;
     shut_down := shut_down w; written := written w ++ [(s, text)]; calls := calls w |}.

Definition add_call (c : log_call) (w : world) : world :=
  {| fs := fs w; cwd := cwd w; BASEURI := BASEURI w; distributions := distributions w;
     now := now w; sys_stdout := sys_stdout w; sys_stderr := sys_stderr w;
     root_handlers := root_handlers w; root_level := root_level w;
     shut_down := shut_down w; written := written w; calls := calls w ++ [c] |}.

(** ** Statements: a state and exception monad *)

(** A statement runs in a world and either returns or raises; what it did
    to the world before raising stays done. *)
Definition M (A : Type) : Type := world -> outcome A * world.

Definition ret {A} (a : A) : M A := fun w => (Return a, w).

Definition raise {A} (e : exn) : M A := fun w => (Raise e, w).

Definition bind {A B} (m : M A) (k : A -> M B) : M B :=
  fun w =>
    match m w with
    | (Return a, w') => k a w'
    | (Raise e, w') => (Raise e, w')
    end.

Definition read {A} (f : world -> A) : M A := fun w => (Return (f w), w).

Definition update (f : world -> world) : M unit := fun w => (Return tt, f w).

Notation "'let*' x ':=' m 'in' k" := (bind m (fun x => k))
  (at level 10, x name, m at level 100, k at level 200, only parsing).
Notation "m ';>' k" := (bind m (fun _ => k))
  (at level 100, k at level 200, right associativity, only parsing).

(** [for x in xs: body(x)] *)
Fixpoint for_each {A} (xs : list A) (body : A -> M unit) : M unit :=
  match xs with
  | [] => ret tt
  | x :: rest => body x ;> for_each rest body
  end.

(** A [try] block whose handlers read a local variable of the enclosing
    function.  The body runs over the local [S]; when it raises, the
    handler gets the exception together with the local as the body left
    it. *)
Definition L (S A : Type) : Type := S -> world -> outcome A * S * world.

Definition lift {S A} (m : M A) : L S A :=
  fun s w => let (r, w') := m w in (r, s, w').

Definition assign {S} (s' : S) : L S unit := fun _ w => (Return tt, s', w).

Definition bindL {S A B} (m : L S A) (k : A -> L S B) : L S B :=
  fun s w =>
    match m s w with
    | (Return a, s', w') => k a s' w'
    | (Raise e, s', w') => (Raise e, s', w')
    end.

Definition try_except {S A} (unbound : S) (body : L S A) (handlers : S -> exn -> M A)
  : M A :=
  fun w =>
    match body unbound w with
    | (Return a, _, w') => (Return a, w')
    | (Raise e, s, w') => handlers s e w'
    end.

(** ** The operating system: [os], [open] and [shutil.copy] *)

Module OS.
Import PyStr PosixPath.

(** The key under which the file system holds what [p] names. *)
Definition resolve (w : world) (p : string) : string := join (cwd w) p.

Definition getcwd : M string := read cwd.

(** [p] names a directory. *)
Definition names_dir (w : world) (p : string) : bool :=
  match fs w !! resolve w p with Some Dir => true | _ => false end.

(** [os.path.isdir(p)] *)
Definition isdir (p : string) : M bool := read (fun w => names_dir w p).

(** [open(p, 'rb').read()] *)
Definition read_file (p : string) : M string :=
  fun w =>
    match fs w !! resolve w p with
    | Some (File data) => (Return data, w)
    | Some Dir => (Raise (IOError ("Is a directory: " +:+ p)), w)
    | None => (Raise (IOError ("No such file or directory: " +:+ p)), w)
    end.

(** What [open(p, 'wb')] and [open(p, 'a')] check before they touch the
    file: [p] may name a file, or nothing yet inside a directory. *)
Definition writable (p : string) : M string :=
  fun w =>
    let key := resolve w p in
    if ends_with_char slash key then (Raise (IOError ("Is a directory: " +:+ p)), w)
    else
      match fs w !! key with
      | Some Dir => (Raise (IOError ("Is a directory: " +:+ p)), w)
      | Some (File _) => (Return key, w)
      | None =>
          match fs w !! dirname key with
          | Some Dir => (Return key, w)
          | _ => (Raise (IOError ("No such file or directory: " +:+ p)), w)
          end
      end.

(** [open(p, 'wb').write(data)]: the file is created or cut to nothing,
    then written. *)
Definition write_file (p data : string) : M unit :=
  let* key := writable p in
  update (fun w => set_fs (<[key := File data]> (fs w)) w).

(** [open(p, 'a')]: the file is created when missing and kept as it is
    otherwise; the result is its key. *)
Definition open_append (p : string) : M string :=
  let* key := writable p in
  update (fun w =>
    match fs w !! key with
    | None => set_fs (<[key := File EmptyString]> (fs w)) w
    | Some _ => w
    end) ;>
  ret key.

(** A write through a file object that was opened in mode ['a'] lands
    at the end of the file; a file that is gone from its path receives
    nothing that can be seen. *)
Definition append_to (key text : string) : M unit :=
  update (fun w =>
    match fs w !! key with
    | Some (File data) => set_fs (<[key := File (data +:+ text)]> (fs w)) w
    | _ => w
    end).

End OS.

Module Shutil.
Import PyStr PosixPath.

(** [shutil._samefile]: both paths name one existing node. *)
Definition _samefile (src dst : string) : M bool :=
  read (fun w =>
    String.eqb (OS.resolve w src) (OS.resolve w dst)
    && match fs w !! OS.resolve w src with Some _ => true | None => false end).

(** [shutil.copyfile]: the source is opened before the destination, and
    the destination is created or cut to nothing when it is opened.  The
    failures of the model (no such file, a directory in the way, the same
    file twice) all strike before that point; a failure while the data
    are written or the mode is copied (a full disk, a refused [chmod]),
    which would leave a new or an emptied destination behind, is outside
    the model. *)
Definition copyfile (src dst : string) : M unit :=
  let* same := _samefile src dst in
  if same then raise (IOError (src +:+ " and " +:+ dst +:+ " are the same file"))
  else
    let* data := OS.read_file src in
    OS.write_file dst data.

(** [shutil.copy(src, dst)]: a directory as [dst] receives the file under
    the source's base name.  [copymode] has nothing to copy in a model
    without permission bits. *)
Definition copy (src dst : string) : M string :=
  let* into_dir := OS.isdir dst in
  let dst' := if into_dir then join dst (basename src) else dst in
  copyfile src dst' ;>
  ret dst'.

End Shutil.

(** ** The [logging] module *)

Module Logging.

Definition NOTSET : Z := 0.
Definition DEBUG : Z := 10.
Definition INFO : Z := 20.
Definition WARNING : Z := 30.
Definition ERROR : Z := 40.
Definition CRITICAL : Z := 50.

(** [logging.getLevelName] *)
Definition getLevelName (lvl : Z) : string :=
  if lvl =? 0 then "NOTSET"
  else if lvl =? 10 then "DEBUG"
  else if lvl =? 20 then "INFO"
  else if lvl =? 30 then "WARNING"
  else if lvl =? 40 then "ERROR"
  else if lvl =? 50 then "CRITICAL"
  else "Level " +:+ pretty lvl.

Definition newline : string := String "010" EmptyString.

(** One formatted record, with the newline the handler ends it with. *)
Definition format_record (f : format) (asctime : string) (c : log_call) : string :=
  match f with
  | EPP_FORMAT =>
      asctime +:+ ":" +:+ getLevelName (call_level c) +:+ ":" +:+ call_name c
        +:+ ":" +:+ call_msg c +:+ newline
  | BASIC_FORMAT =>
      getLevelName (call_level c) +:+ ":" +:+ call_name c
        +:+ ":" +:+ call_msg c +:+ newline
  end.

(** [Handler.emit] *)
Definition emit (c : log_call) (h : handler) : M unit :=
  let* t := read now in
  match h with
  | FileHandler key f => OS.append_to key (format_record f t c)
  | StreamHandler s f => update (add_written s (format_record f t c))
  end.

(** [Logger.isEnabledFor] for a logger without a level of its own, which
    takes the root's: [manager.disable] is 0, so a level must be
    positive, and it must reach the effective level. *)
Definition isEnabledFor (lvl : Z) : M bool :=
  read (fun w => (0 <? lvl) && (root_level w <=? lvl)).

(** [Logger.callHandlers]: the record goes to the root's handlers; with
    none installed, [logging.lastResort] prints warnings and worse, bare,
    on what [sys.stderr] is at that moment. *)
Definition callHandlers (c : log_call) : M unit :=
  let* hs := read root_handlers in
  match hs with
  | [] =>
      if WARNING <=? call_level c
      then let* s := read sys_stderr in
           update (add_written s (call_msg c +:+ newline))
      else ret tt
  | _ :: _ => for_each hs (emit c)
  end.

(** [logging.getLogger(name).log(level, msg)] *)
Definition log (name : string) (lvl : Z) (msg : string) : M unit :=
  let c := {| call_name := name; call_level := lvl; call_msg := msg |} in
  update (add_call c) ;>
  let* enabled := isEnabledFor lvl in
  if enabled then callHandlers c else ret tt.

(** [logging.FileHandler(filename, 'a')]: the file is opened at once. *)
Definition open_FileHandler (filename : string) (f : format) : M handler :=
  let* key := OS.open_append filename in
  ret (FileHandler key f).

(** [logging.basicConfig(level=..., format=..., filename=..., filemode='a')]:
    does nothing when the root logger has a handler already.  An empty
    or absent file name selects a [StreamHandler] on [sys.stderr]. *)
Definition basicConfig (lvl : option Z) (f : format) (filename : option string)
  : M unit :=
  let* hs := read root_handlers in
  match hs with
  | [] =>
      let* h :=
        match filename with
        | Some name =>
            if PyStr.is_empty name
            then let* s := read sys_stderr in ret (StreamHandler s f)
            else open_FileHandler name f
        | None => let* s := read sys_stderr in ret (StreamHandler s f)
        end in
      update (fun w => set_root [h] (default (root_level w) lvl) w)
  | _ :: _ => ret tt
  end.

(** The module-level [logging.info], [logging.warning] and
    [logging.error]: they configure the root logger first when it has no
    handler. *)
Definition root_log (lvl : Z) (msg : string) : M unit :=
  let* hs := read root_handlers in
  (match hs with [] => basicConfig None BASIC_FORMAT None | _ :: _ => ret tt end) ;>
  log "root" lvl msg.

Definition info (msg : string) : M unit := root_log INFO msg.
Definition warning (msg : string) : M unit := root_log WARNING msg.
Definition error (msg : string) : M unit := root_log ERROR msg.

(** [logging.shutdown()]: every handler is flushed and closed. *)
Definition shutdown : M unit := update (set_shut_down true).

End Logging.

(** ** Collaborators of the source *)

(** [pkg_resources.require(package)[0].version]: the version of the
    installed distribution, or [DistributionNotFound]. *)
Definition require_version (package : string) : M string :=
  fun w =>
    match distributions w !! package with
    | Some version => (Return version, w)
    | None => (Raise (DistributionNotFound package), w)
    end.

(** The remote system as the source meets it: for an artifact id, the
    content locations of the artifact's files, or the exception in which
    the request ends. *)
Definition Lims : Type := string -> outcome (list string).

(** [Artifact(lims, id=...)], [get()] and [files] in one step.  The
    default [lims=None] has no attribute to call. *)
Definition Artifact_files (lims : option Lims) (id : string) : M (list string) :=
  match lims with
  | None => raise (AttributeError "NoneType object has no attribute get_uri")
  | Some remote => fun w => (remote id, w)
  end.

(** [l[i]] *)
Definition subscript {A} (l : list A) (i : nat) : M A :=
  match l !! i with
  | Some x => ret x
  | None => raise IndexError
  end.

(** [s.split(sep)] as a statement. *)
Definition str_split (s sep : string) : M (list string) :=
  match PyStr.split sep s with
  | Some pieces => ret pieces
  | None => raise (ValueError "empty separator")
  end.

(** [sys.exit(code)] *)
Definition sys_exit {A} (code : Z) : M A := raise (SystemExit code).


(** A resource of the remote system, as far as [attach_file] looks at it. *)
Module Resource.
Record t : Type := { id : string }.
End Resource.

(** ** The source: [genologics/epp.py] *)

Module Epp.
Import PyStr PosixPath.

(** [attach_file(src, resource)] *)
Definition attach_file (src : string) (resource : Resource.t) : M string :=
  let original_name := basename src in
  let new_name := Resource.id resource +:+ "_" +:+ original_name in
  let* dir := OS.getcwd in
  let location := join dir new_name in
  Shutil.copy src location ;>
  ret location.

(** [unique_check(l, msg)]: it touches nothing, so it runs outside the
    monad. *)
Definition unique_check {A} (l : list A) (msg : string) : outcome unit :=
  if Z.of_nat (length l) =? 0 then
    Raise (EmptyError ("No item found for " +:+ msg))
  else if negb (Z.of_nat (length l) =? 1) then
    Raise (NotUniqueError ("Multiple items found for " +:+ msg))
  else Return tt.

(** [StreamToLogger.write(buf)] *)
Definition write (self : StreamToLogger) (buf : string) : M unit :=
  for_each (splitlines (rstrip buf))
    (fun line => Logging.log (logger self) (log_level self) (rstrip line)).

(** [stream.write(buf)] on whatever [sys.stdout] or [sys.stderr] is. *)
Definition stream_write (s : stream) (buf : string) : M unit :=
  match s with
  | Console c => update (add_written (Console c) buf)
  | Captured slo => write slo buf
  end.

Record EppLogger : Type := {
  lims : option Lims;
  log_file : string;
  level : Z;
  prepend : bool;
  slo : StreamToLogger;
  saved_stdout : stream;
  sle : StreamToLogger;
  saved_stderr : stream;
  self_logger : string
}.

Definition PACKAGE : string := "genologics".

(** [EppLogger.__enter__] *)
Definition __enter__ (self : EppLogger) : M EppLogger :=
  try_except tt
    (lift (let* version := require_version PACKAGE in
           Logging.info ("Version: " +:+ version)))
    (fun _ e =>
       if is_DistributionNotFound e then
         Logging.error (str_of_exn e) ;>
         Logging.error ("Make sure you have the " +:+ PACKAGE +:+ " package installed") ;>
         sys_exit (-1)
       else raise e) ;>
  ret self.

(** [EppLogger.__exit__]: [exc] is the exception that ended the block,
    if one did. *)
Definition __exit__ (self : EppLogger) (exc : option exn) : M bool :=
  (match exc with
   | None =>
       Logging.shutdown ;>
       update (set_sys_stderr (saved_stderr self)) ;>
       update (set_sys_stdout (saved_stdout self))
   | Some _ => ret tt
   end) ;>
  ret false.

(** [log_artifact.files[0].content_location.split(BASEURI.split(':')[1])[1]] *)
Definition local_path (content_location : string) : M string :=
  let* base := read BASEURI in
  let* parts := str_split base ":" in
  let* authority := subscript parts 1 in
  let* pieces := str_split content_location authority in
  subscript pieces 1.

(** [EppLogger.prepend_old_log]; the local [log_path] is unbound until
    the assignment in the [try] block has run. *)
Definition prepend_old_log (self_lims : option Lims) (self_log_file : string)
  : M unit :=
  try_except None
    (bindL (lift (Artifact_files self_lims self_log_file)) (fun files =>
       match files with
       | [] => lift (ret tt)
       | file0 :: _ =>
           bindL (lift (local_path file0)) (fun log_path =>
           bindL (assign (Some log_path)) (fun _ =>
           lift (let* dir := OS.getcwd in
                 let destination := join dir self_log_file in
                 Shutil.copy log_path destination ;>
                 ret tt)))
       end))
    (fun log_path e =>
       if is_HTTPError e then
         Logging.warning ("No log file artifact found for id: " +:+ self_log_file)
       else if is_IOError e then
         match log_path with
         | None => raise (UnboundLocalError "log_path")
         | Some path =>
             Logging.error ("Log could not be prepended, make sure " +:+ path
                            +:+ " and " +:+ self_log_file +:+ " are proper paths.") ;>
             raise e
         end
       else raise e).

(** [EppLogger.__init__(log_file, level, lims, prepend)] *)
Definition __init__ (log_file : string) (level : Z) (lims : option Lims)
    (prepend : bool) : M EppLogger :=
  (if prepend then prepend_old_log lims log_file else ret tt) ;>
  Logging.basicConfig (Some level) EPP_FORMAT (Some log_file) ;>
  let slo := {| logger := "STDOUT"; log_level := Logging.INFO; linebuf := EmptyString |} in
  let* saved_stdout := read sys_stdout in
  update (set_sys_stdout (Captured slo)) ;>
  let sle := {| logger := "STDERR"; log_level := Logging.ERROR; linebuf := EmptyString |} in
  let* saved_stderr := read sys_stderr in
  update (set_sys_stderr (Captured sle)) ;>
  ret {| lims := lims; log_file := log_file; level := level; prepend := prepend;
         slo := slo; saved_stdout := saved_stdout;
         sle := sle; saved_stderr := saved_stderr; self_logger := "root" |}.

(** [with EppLogger(log_file, level, lims, prepend) as epp: block(epp)].
    The block's exception goes through [__exit__], whose result decides
    whether it is swallowed; [None] is the result of a block whose
    exception was swallowed. *)
Definition with_EppLogger {A} (log_file : string) (level : Z) (lims : option Lims)
    (prepend : bool) (block : EppLogger -> M A) : M (option A) :=
  let* manager := __init__ log_file level lims prepend in
  let* epp := __enter__ manager in
  fun w =>
    match block epp w with
    | (Return a, w') =>
        match __exit__ manager None w' with
        | (Return _, w'') => (Return (Some a), w'')
        | (Raise e, w'') => (Raise e, w'')
        end
    | (Raise e, w') =>
        match __exit__ manager (Some e) w' with
        | (Return true, w'') => (Return None, w'')
        | (Return false, w'') => (Raise e, w'')
        | (Raise e', w'') => (Raise e', w'')
        end
    end.

End Epp.

(** ** Vocabulary of the statements *)

Module Spec.
Import PyStr PosixPath.

(** The last character of [s] is whitespace. *)
Fixpoint ends_with_space (s : string) : bool :=
  match s with
  | EmptyString => false
  | String c EmptyString => isspace c
  | String _ rest => ends_with_space rest
  end.

Fixpoint has_linebreak (s : string) : bool :=
  match s with
  | EmptyString => false
  | String c rest => islinebreak c || has_linebreak rest
  end.

(** The record a captured stream hands to its logger for one line. *)
Definition record_of_line (self : StreamToLogger) (line : string) : log_call :=
  {| call_name := logger self; call_level := log_level self; call_msg := rstrip line |}.

(** A path that starts at the root. *)
Definition absolute (p : string) : bool := startswith "/" p.

(** A directory path as [os.getcwd()] gives it: absolute, and without a
    slash at its end unless it is the root. *)
Definition normal_dir (d : string) : bool :=
  absolute d && (String.eqb d "/" || negb (ends_with_char slash d)).

(** The parts of the world that neither logging nor copying touches. *)
Definition same_env (w w' : world) : Prop :=
  cwd w' = cwd w /\ BASEURI w' = BASEURI w /\ distributions w' = distributions w
  /\ now w' = now w /\ sys_stdout w' = sys_stdout w /\ sys_stderr w' = sys_stderr w
  /\ shut_down w' = shut_down w.

Definition keeps_env {A} (m : M A) : Prop := forall w, same_env w (snd (m w)).

(** What a handler does to the world: files and streams may grow, the
    rest stays. *)
Definition quiet (w w' : world) : Prop :=
  same_env w w' /\ calls w' = calls w
  /\ root_handlers w' = root_handlers w /\ root_level w' = root_level w.

(** The same for the body of a [try] block. *)
Definition keeps_envL {S A} (m : L S A) : Prop := forall s w, same_env w (snd (m s w)).

(** A statement that leaves the world as it is. *)
Definition reads_only {A} (m : M A) : Prop := forall w, snd (m w) = w.

(** Whether a root logger at [root] lets a record through. *)
Definition passes (root : Z) (c : log_call) : bool :=
  (0 <? call_level c) && (root <=? call_level c).

(** The text a file handler with the source's format adds for the calls
    [cs], all made at time [t]. *)
Fixpoint rendered (root : Z) (t : string) (cs : list log_call) : string :=
  match cs with
  | [] => EmptyString
  | c :: rest =>
      (if passes root c then Logging.format_record EPP_FORMAT t c else EmptyString)
        +:+ rendered root t rest
  end.

(** The root logger writes to the file [target] alone, in the format of
    the source, and the file system is [base] but for that file, which
    holds [content]. *)
Definition logs_to (target : string) (level : Z) (base : gmap string node)
    (content : string) (w : world) : Prop :=
  root_handlers w = [FileHandler target EPP_FORMAT]
  /\ root_level w = level
  /\ fs w = <[target := File content]> base.

(** The record of the version that [__enter__] logs. *)
Definition version_record (version : string) : log_call :=
  {| call_name := "root"; call_level := Logging.INFO;
     call_msg := "Version: " +:+ version |}.

(** A block that does nothing but write to the two streams:
    [sys.stdout.write(buf)] for [(Stdout, buf)], [sys.stderr.write(buf)]
    for [(Stderr, buf)]. *)
Definition sys_write (target : console * string) : M unit :=
  let* s := read (match target.1 with Stdout => sys_stdout | Stderr => sys_stderr end) in
  Epp.stream_write s target.2.

Definition writes (ws : list (console * string)) : M unit := for_each ws sys_write.

(** The records that the captured streams of an [EppLogger] make of
    these writes. *)
Definition records_of_writes (ws : list (console * string)) : list log_call :=
  flat_map (fun target =>
    let self :=
      match target.1 with
      | Stdout => {| logger := "STDOUT"; log_level := Logging.INFO; linebuf := EmptyString |}
      | Stderr => {| logger := "STDERR"; log_level := Logging.ERROR; linebuf := EmptyString |}
      end in
    map (record_of_line self) (splitlines (rstrip target.2))) ws.

End Spec.

(** ** Sample inputs *)

Module Sample.

Definition LF : string := String "010" EmptyString.

Definition files : gmap string node :=
  list_to_map [("/", Dir); ("/work", Dir); ("/data", Dir); ("/tmp", Dir);
               ("/home/glsftp", Dir);
               ("/data/report.txt", File "results");
               ("/home/glsftp/old.log", File ("old line" +:+ LF))].

(** A fresh process in [/work] with the package installed. *)
Definition fresh : world :=
  {| fs := files; cwd := "/work"; BASEURI := "https://lims.example.org:8443";
     distributions := {[ "genologics" := "0.3.1" ]};
     now := "2013-05-05 10:00:00,000";
     sys_stdout := Console Stdout; sys_stderr := Console Stderr;
     root_handlers := []; root_level := Logging.WARNING; shut_down := false;
     written := []; calls := [] |}.

(** The same process without the package's metadata. *)
Definition broken_install : world :=
  {| fs := files; cwd := "/work"; BASEURI := "https://lims.example.org:8443";
     distributions := ∅;
     now := "2013-05-05 10:00:00,000";
     sys_stdout := Console Stdout; sys_stderr := Console Stderr;
     root_handlers := []; root_level := Logging.WARNING; shut_down := false;
     written := []; calls := [] |}.

(** A second run: the attachment of the first one is still there. *)
Definition rerun : world :=
  set_fs (<["/work/ABC123_report.txt" := File "stale"]> files) fresh.

Definition stdout_capture : StreamToLogger :=
  {| logger := "STDOUT"; log_level := Logging.INFO; linebuf := EmptyString |}.

(** Remote systems: one that holds the old log, one that answers with a
    server error, one whose file lies under another host. *)
Definition lims_with_log : Lims :=
  fun _ => Return ["sftp://lims.example.org/home/glsftp/old.log"].
Definition lims_server_error : Lims := fun _ => Raise (HTTPError 500).
Definition lims_elsewhere : Lims :=
  fun _ => Return ["sftp://files.example.com/home/glsftp/old.log"].
Definition lims_lost_file : Lims :=
  fun _ => Return ["sftp://lims.example.org/home/glsftp/lost.log"].

Definition manager : Epp.EppLogger :=
  {| Epp.lims := None; Epp.log_file := "run.log"; Epp.level := Logging.INFO;
     Epp.prepend := false;
     Epp.slo := stdout_capture; Epp.saved_stdout := Console Stdout;
     Epp.sle := {| logger := "STDERR"; log_level := Logging.ERROR; linebuf := EmptyString |};
     Epp.saved_stderr := Console Stderr; Epp.self_logger := "root" |}.

(** What the process looks like inside the block of
    [with EppLogger("run.log")]. *)
Definition inside_block : world :=
  snd (Epp.__enter__ manager (snd (Epp.__init__ "run.log" Logging.INFO None false fresh))).

Definition failing_block (_ : Epp.EppLogger) : M unit :=
  Spec.writes [(Stdout, "working")] ;> raise (ValueError "no such sample").

End Sample.

(** ** More vocabulary and more sample inputs *)

Module Cover.
Import PyStr PosixPath.

(** [s.isspace()], or [s] is empty: every character is whitespace. *)
Fixpoint all_space (s : string) : bool :=
  match s with
  | EmptyString => true
  | String c rest => isspace c && all_space rest
  end.

(** No file has lost anything from [w] to [w']: each file of [w] is a
    file of [w'] that begins with what it held, and each directory is
    still a directory. *)
Definition only_grown (w w' : world) : Prop :=
  forall p,
    match fs w !! p with
    | Some (File data) => exists more, fs w' !! p = Some (File (data +:+ more))
    | Some Dir => fs w' !! p = Some Dir
    | None => True
    end.

(** [StreamToLogger.__init__(logger, log_level)] *)
Definition StreamToLogger_init (logger : string) (log_level : Z) : StreamToLogger :=
  {| logger := logger; log_level := log_level; linebuf := EmptyString |}.

End Cover.

Module Cases.

(** The attachment's place is taken by a directory. *)
Definition blocked : world :=
  set_fs (<["/work/ABC123_report.txt" := Dir]> Sample.files) Sample.fresh.

(** A process that logs to [/work/first.log] already. *)
Definition configured : world :=
  set_root [FileHandler "/work/first.log" EPP_FORMAT] Logging.INFO
    (set_fs (<["/work/first.log" := File "first"]> Sample.files) Sample.fresh).

(** The same with the threshold at [WARNING]. *)
Definition warnings_only : world :=
  set_root [FileHandler "/work/first.log" EPP_FORMAT] Logging.WARNING
    (set_fs (<["/work/first.log" := File "first"]> Sample.files) Sample.fresh).

(** A process inside a failed block: the streams are captured. *)
Definition captured : world :=
  set_sys_stderr (Captured (Cover.StreamToLogger_init "STDERR" Logging.ERROR))
    (set_sys_stdout (Captured (Cover.StreamToLogger_init "STDOUT" Logging.INFO))
       configured).

(** Base URIs that are not what [prepend_old_log] expects. *)
Definition with_base (base : string) (w : world) : world :=
  {| fs := fs w; cwd := cwd w; BASEURI := base; distributions := distributions w;
     now := now w; sys_stdout := sys_stdout w; sys_stderr := sys_stderr w;
     root_handlers := root_handlers w; root_level := root_level w;
     shut_down := shut_down w; written := written w; calls := calls w |}.

Definition no_colon : world := with_base "lims.example.org" Sample.fresh.
Definition colon_last : world := with_base "lims.example.org:" Sample.fresh.

End Cases.

(** * Properties *)

(** ** Strings *)

Section StringFacts.
Import PyStr PosixPath Spec.

Lemma str_app_cons (c : ascii) (a b : string) : String c a +:+ b = String c (a +:+ b).
Proof. reflexivity. Qed.

Lemma str_app_empty_l (s : string) : EmptyString +:+ s = s.
Proof. reflexivity. Qed.

Lemma str_app_empty_r (s : string) : s +:+ EmptyString = s.
Proof. induction s as [|c s' IH]; [done | by rewrite str_app_cons, IH]. Qed.

Lemma str_app_assoc (a b c : string) : (a +:+ b) +:+ c = a +:+ (b +:+ c).
Proof. induction a as [|x a' IH]; [done | by rewrite !str_app_cons, IH]. Qed.

Lemma str_length_app (a b : string) :
  String.length (a +:+ b) = (String.length a + String.length b)%nat.
Proof. induction a as [|x a' IH]; [done | rewrite str_app_cons; simpl; by rewrite IH]. Qed.

Lemma startswith_app (p s : string) : startswith p (p +:+ s) = true.
Proof.
  induction p as [|c p' IH]; [done |].
  rewrite str_app_cons. simpl. by rewrite Ascii.eqb_refl.
Qed.

Lemma contains_startswith (sub s : string) :
  startswith sub s = true -> contains sub s = true.
Proof. intros H. destruct s; simpl in *; rewrite H; done. Qed.

(** A string occurs in whatever is built around it. *)
Lemma contains_app (pre sub post : string) :
  contains sub (pre +:+ sub +:+ post) = true.
Proof.
  induction pre as [|c pre' IH].
  - rewrite str_app_empty_l. apply contains_startswith, startswith_app.
  - rewrite str_app_cons. simpl. rewrite IH. apply orb_true_r.
Qed.

Lemma contains_suffix (pre sub : string) : contains sub (pre +:+ sub) = true.
Proof.
  rewrite <- (str_app_empty_r sub) at 2. apply contains_app.
Qed.

Lemma contains_tail (sub : string) (c : ascii) (s : string) :
  contains sub (String c s) = false -> contains sub s = false.
Proof.
  simpl. intros H. apply orb_false_iff in H as [_ H]. exact H.
Qed.

Lemma contains_head (sub : string) (s : string) :
  contains sub s = false -> startswith sub s = false.
Proof.
  destruct s; simpl; intros H; apply orb_false_iff in H as [H _]; exact H.
Qed.

(** Without an occurrence of the separator, [split] has one piece. *)
Lemma split_scan_absent (sep cur s : string) :
  contains sep s = false ->
  split_scan sep O cur s = [cur +:+ s].
Proof.
  revert cur. induction s as [|c s IH]; intros cur H; simpl.
  - by rewrite str_app_empty_r.
  - pose proof (contains_head _ _ H) as Hhd. simpl in Hhd.
    destruct sep as [|a sep'].
    + simpl in H. discriminate.
    + rewrite Hhd. rewrite (IH _ (contains_tail _ _ _ H)).
      by rewrite str_app_assoc.
Qed.

Lemma split_absent (sep s : string) :
  is_empty sep = false -> contains sep s = false -> split sep s = Some [s].
Proof.
  intros Hne H. unfold split. rewrite Hne. by rewrite split_scan_absent.
Qed.

(** [rstrip] leaves nothing to strip. *)
Lemma rstrip_no_trailing_space (s : string) : ends_with_space (rstrip s) = false.
Proof.
  induction s as [|c s IH]; simpl; [done |].
  destruct (rstrip s) as [|c' r] eqn:E.
  - destruct (isspace c) eqn:Hc; simpl; [done | exact Hc].
  - simpl in *. exact IH.
Qed.

Lemma rstrip_keeps_linebreak_free (s : string) :
  has_linebreak s = false -> has_linebreak (rstrip s) = false.
Proof.
  induction s as [|c s IH]; simpl; [done |].
  intros H. apply orb_false_iff in H as [Hc Hs].
  destruct (rstrip s) as [|c' r] eqn:E.
  - destruct (isspace c); simpl; [done | by rewrite Hc].
  - simpl. rewrite Hc. simpl. apply IH in Hs. exact Hs.
Qed.

Lemma splitlines_linebreak_free_upto (n : nat) (s : string) :
  (String.length s <= n)%nat ->
  Forall (fun line => has_linebreak line = false) (splitlines s).
Proof.
  revert s. induction n as [|n IH]; intros [|c s] Hlen; simpl in Hlen;
    try (constructor; fail); try lia.
  assert (Hs : Forall (fun line => has_linebreak line = false) (splitlines s))
    by (apply IH; lia).
  simpl. destruct (islinebreak c) eqn:Hc.
  - constructor; [done |].
    destruct s as [|c' s']; [constructor |].
    destruct ((code c =? 13) && (code c' =? 10)); [| exact Hs].
    apply IH. simpl in Hlen. lia.
  - destruct (splitlines s) as [|l ls]; constructor.
    + simpl. by rewrite Hc.
    + constructor.
    + simpl. rewrite Hc. by inversion Hs.
    + by inversion Hs.
Qed.

(** No line of [splitlines] holds a line boundary. *)
Lemma splitlines_linebreak_free (s : string) :
  Forall (fun line => has_linebreak line = false) (splitlines s).
Proof. by apply (splitlines_linebreak_free_upto (String.length s)). Qed.

End StringFacts.

(** ** Statements in the monad *)

Ltac run :=
  unfold bind, ret, raise, read, update, lift, bindL, assign, try_except in *;
  simpl in *.

(** Closed goals are settled by evaluation. *)
Ltac computed := vm_compute; first [reflexivity | discriminate].

Section Frames.
Import Spec.

Lemma same_env_refl (w : world) : same_env w w.
Proof. by repeat split. Qed.

Lemma same_env_trans (w1 w2 w3 : world) :
  same_env w1 w2 -> same_env w2 w3 -> same_env w1 w3.
Proof.
  unfold same_env. intros (?&?&?&?&?&?&?) (?&?&?&?&?&?&?).
  repeat split; congruence.
Qed.

Lemma keeps_env_ret {A} (a : A) : keeps_env (ret a).
Proof. intros w. apply same_env_refl. Qed.

Lemma keeps_env_raise {A} (e : exn) : keeps_env (@raise A e).
Proof. intros w. apply same_env_refl. Qed.

Lemma keeps_env_read {A} (f : world -> A) : keeps_env (read f).
Proof. intros w. apply same_env_refl. Qed.

Lemma keeps_env_bind {A B} (m : M A) (k : A -> M B) :
  keeps_env m -> (forall a, keeps_env (k a)) -> keeps_env (bind m k).
Proof.
  intros Hm Hk w. unfold bind. specialize (Hm w).
  destruct (m w) as [[a|e] w1]; simpl in *; [| exact Hm].
  eapply same_env_trans; [exact Hm | apply Hk].
Qed.

Lemma keeps_env_set_fs (f : world -> gmap string node) :
  keeps_env (update (fun w => set_fs (f w) w)).
Proof. intros w. by repeat split. Qed.

End Frames.

(** ** The operating system model *)

Section OSFacts.
Import PyStr PosixPath Spec.

Lemma keeps_env_read_file (p : string) : keeps_env (OS.read_file p).
Proof.
  intros w. unfold OS.read_file.
  destruct (fs w !! OS.resolve w p) as [[d|]|]; apply same_env_refl.
Qed.

Lemma writable_same_world (p : string) (w : world) : snd (OS.writable p w) = w.
Proof.
  unfold OS.writable. destruct (ends_with_char slash (OS.resolve w p)); [done |].
  destruct (fs w !! OS.resolve w p) as [[d|]|]; try done.
  destruct (fs w !! dirname (OS.resolve w p)) as [[d|]|]; done.
Qed.

Lemma keeps_env_writable (p : string) : keeps_env (OS.writable p).
Proof. intros w. rewrite writable_same_world. apply same_env_refl. Qed.

Lemma keeps_env_write_file (p data : string) : keeps_env (OS.write_file p data).
Proof.
  apply keeps_env_bind; [apply keeps_env_writable |].
  intros key. apply (keeps_env_set_fs (fun w => <[key := File data]> (fs w))).
Qed.

Lemma keeps_env_open_append (p : string) : keeps_env (OS.open_append p).
Proof.
  apply keeps_env_bind; [apply keeps_env_writable |].
  intros key. apply keeps_env_bind; [| intros; apply keeps_env_ret].
  intros w. simpl. destruct (fs w !! key); by repeat split.
Qed.

Lemma keeps_env_copyfile (src dst : string) : keeps_env (Shutil.copyfile src dst).
Proof.
  apply keeps_env_bind; [apply keeps_env_read |].
  intros [|]; [apply keeps_env_raise |].
  apply keeps_env_bind; [apply keeps_env_read_file |].
  intros data. apply keeps_env_write_file.
Qed.

Lemma keeps_env_copy (src dst : string) : keeps_env (Shutil.copy src dst).
Proof.
  apply keeps_env_bind; [apply keeps_env_read |].
  intros b. apply keeps_env_bind; [apply keeps_env_copyfile |].
  intros _. apply keeps_env_ret.
Qed.

(** Every failure that the model of [shutil.copy] has is an [IOError]
    raised before the destination is opened, so that the world is as
    it was. *)
Lemma copy_failure (src dst : string) (w w' : world) (e : exn) :
  Shutil.copy src dst w = (Raise e, w') ->
  (exists what, e = IOError what) /\ w' = w.
Proof.
  unfold Shutil.copy, Shutil.copyfile, Shutil._samefile, OS.isdir, OS.write_file,
    OS.read_file, OS.writable.
  run.
  repeat (case_match; simplify_eq/=); intros; simplify_eq/=; eauto.
Qed.

(** A copy that succeeds changes one entry of the file system, which then
    holds what the source holds, and nothing else in the world. *)
Lemma copy_success (src dst : string) (w w' : world) (result : string) :
  Shutil.copy src dst w = (Return result, w') ->
  exists data,
    result = (if OS.names_dir w dst then join dst (basename src) else dst)
    /\ fs w !! OS.resolve w src = Some (File data)
    /\ OS.resolve w src <> OS.resolve w result
    /\ w' = set_fs (<[OS.resolve w result := File data]> (fs w)) w.
Proof.
  unfold Shutil.copy, Shutil.copyfile, Shutil._samefile, OS.isdir, OS.write_file,
    OS.read_file, OS.writable.
  run.
  repeat (case_match; simplify_eq/=); intros; simplify_eq/=;
    eexists; (split; [done |]); (split; [done |]); (split; [| done]);
    intros Heq; rewrite Heq, String.eqb_refl in *; simplify_eq/=.
Qed.

End OSFacts.

(** ** The logging model *)

Section LoggingFacts.
Import Spec.

Lemma quiet_refl (w : world) : quiet w w.
Proof. split; [apply same_env_refl | done]. Qed.

Lemma quiet_trans (w1 w2 w3 : world) : quiet w1 w2 -> quiet w2 w3 -> quiet w1 w3.
Proof.
  intros (He1&?&?&?) (He2&?&?&?).
  split; [eapply same_env_trans; eauto |]. repeat split; congruence.
Qed.

Lemma emit_quiet (c : log_call) (h : handler) (w : world) :
  exists w', Logging.emit c h w = (Return tt, w') /\ quiet w w'.
Proof.
  unfold Logging.emit, OS.append_to. run.
  destruct h as [key f|s f].
  - eexists; split; [done |].
    destruct (fs w !! key) as [[d|]|]; by repeat split.
  - eexists; split; [done |]. by repeat split.
Qed.

Lemma for_each_emit_quiet (c : log_call) (hs : list handler) (w : world) :
  exists w', for_each hs (Logging.emit c) w = (Return tt, w') /\ quiet w w'.
Proof.
  revert w. induction hs as [|h hs IH]; intros w; simpl.
  - eexists; split; [done | apply quiet_refl].
  - unfold bind. destruct (emit_quiet c h w) as (w1 & -> & Hq1).
    destruct (IH w1) as (w2 & -> & Hq2).
    eexists; split; [done | eapply quiet_trans; eauto].
Qed.

Lemma callHandlers_quiet (c : log_call) (w : world) :
  exists w', Logging.callHandlers c w = (Return tt, w') /\ quiet w w'.
Proof.
  unfold Logging.callHandlers. run.
  destruct (root_handlers w) as [|h hs] eqn:Hhs.
  - destruct (Logging.WARNING <=? call_level c); run;
      (eexists; split; [done |]); by repeat split.
  - apply for_each_emit_quiet.
Qed.

(** A logging call never raises; it adds itself to the calls and leaves
    the configuration alone. *)
Lemma log_returns (name : string) (lvl : Z) (msg : string) (w : world) :
  exists w',
    Logging.log name lvl msg w = (Return tt, w')
    /\ same_env w w'
    /\ calls w' = calls w ++ [{| call_name := name; call_level := lvl; call_msg := msg |}]
    /\ root_handlers w' = root_handlers w /\ root_level w' = root_level w.
Proof.
  unfold Logging.log, Logging.isEnabledFor. run.
  destruct ((0 <? lvl) && (root_level w <=? lvl)).
  - match goal with |- context [Logging.callHandlers ?c ?w1] =>
      destruct (callHandlers_quiet c w1) as (w2 & -> & (He & Hc & Hh & Hl)) end.
    eexists; split; [done |]. simpl in *.
    repeat split; try tauto; try congruence; apply He.
  - eexists; split; [done |]. by repeat split.
Qed.

(** [basicConfig()] without arguments never raises. *)
Lemma basicConfig_default (w : world) :
  exists w',
    Logging.basicConfig None BASIC_FORMAT None w = (Return tt, w')
    /\ same_env w w' /\ calls w' = calls w /\ fs w' = fs w.
Proof.
  unfold Logging.basicConfig. run.
  destruct (root_handlers w); eexists; (split; [done |]); by repeat split.
Qed.

Lemma keeps_env_basicConfig (lvl : option Z) (f : format) (name : option string) :
  keeps_env (Logging.basicConfig lvl f name).
Proof.
  unfold Logging.basicConfig.
  apply keeps_env_bind; [apply keeps_env_read |].
  intros [|h hs]; [| apply keeps_env_ret].
  apply keeps_env_bind.
  - destruct name as [n|].
    + destruct (PyStr.is_empty n).
      * apply keeps_env_bind; [apply keeps_env_read | intros; apply keeps_env_ret].
      * unfold Logging.open_FileHandler.
        apply keeps_env_bind; [apply keeps_env_open_append | intros; apply keeps_env_ret].
    + apply keeps_env_bind; [apply keeps_env_read | intros; apply keeps_env_ret].
  - intros h w. by repeat split.
Qed.

(** The module-level logging functions never raise either. *)
Lemma root_log_returns (lvl : Z) (msg : string) (w : world) :
  exists w',
    Logging.root_log lvl msg w = (Return tt, w')
    /\ same_env w w'
    /\ calls w' = calls w ++ [{| call_name := "root"; call_level := lvl; call_msg := msg |}].
Proof.
  unfold Logging.root_log. unfold bind at 1. unfold read at 1. unfold bind at 1.
  destruct (root_handlers w) as [|h hs] eqn:Hhs.
  - destruct (basicConfig_default w) as (w1 & -> & He1 & Hc1 & _).
    destruct (log_returns "root" lvl msg w1) as (w2 & -> & He2 & Hc2 & _).
    eexists; split; [done |]. split; [eapply same_env_trans; eauto |].
    by rewrite Hc2, Hc1.
  - unfold ret at 1.
    destruct (log_returns "root" lvl msg w) as (w2 & -> & He2 & Hc2 & _).
    eexists; split; [done |]. by split.
Qed.

Lemma keeps_env_root_log (lvl : Z) (msg : string) : keeps_env (Logging.root_log lvl msg).
Proof.
  intros w. destruct (root_log_returns lvl msg w) as (w' & -> & He & _). exact He.
Qed.

End LoggingFacts.

(** ** [try] blocks *)

Section TryFacts.
Import Spec.

Lemma keeps_envL_lift {S A} (m : M A) : keeps_env m -> keeps_envL (@lift S A m).
Proof.
  intros Hm s w. unfold lift. specialize (Hm w). by destruct (m w).
Qed.

Lemma keeps_envL_assign {S} (s' : S) : keeps_envL (assign s').
Proof. intros s w. apply same_env_refl. Qed.

Lemma keeps_envL_bind {S A B} (m : L S A) (k : A -> L S B) :
  keeps_envL m -> (forall a, keeps_envL (k a)) -> keeps_envL (bindL m k).
Proof.
  intros Hm Hk s w. unfold bindL. specialize (Hm s w).
  destruct (m s w) as [[[a|e] s1] w1]; simpl in *; [| exact Hm].
  eapply same_env_trans; [exact Hm | apply Hk].
Qed.

Lemma keeps_env_try_except {S A} (unbound : S) (body : L S A)
    (handlers : S -> exn -> M A) :
  keeps_envL body -> (forall s e, keeps_env (handlers s e)) ->
  keeps_env (try_except unbound body handlers).
Proof.
  intros Hb Hh w. unfold try_except. specialize (Hb unbound w).
  destruct (body unbound w) as [[[a|e] s1] w1]; simpl in *; [exact Hb |].
  eapply same_env_trans; [exact Hb | apply Hh].
Qed.

End TryFacts.

(** ** [unique_check] *)

Section UniqueCheck.
Import PyStr.

Lemma unique_check_cases {A} (l : list A) (msg : string) :
  (length l = 0%nat
   /\ Epp.unique_check l msg = Raise (EmptyError ("No item found for " +:+ msg)))
  \/ (length l = 1%nat /\ Epp.unique_check l msg = Return tt)
  \/ ((1 < length l)%nat
      /\ Epp.unique_check l msg = Raise (NotUniqueError ("Multiple items found for " +:+ msg))).
Proof.
  unfold Epp.unique_check.
  destruct (Z.of_nat (length l) =? 0) eqn:H0.
  - left. split; [apply Z.eqb_eq in H0; lia | done].
  - apply Z.eqb_neq in H0.
    destruct (Z.of_nat (length l) =? 1) eqn:H1; simpl.
    + right; left. split; [apply Z.eqb_eq in H1; lia | done].
    + right; right. split; [apply Z.eqb_neq in H1; lia | done].
Qed.

(** C4. [unique_check(l, msg)] returns, with nothing to return, exactly
    when [l] has one item; it raises [EmptyError] exactly when [l] is
    empty and [NotUniqueError] exactly when [l] has more than one item,
    and the message of either error contains [msg]. *)
Theorem unique_check_cardinality {A} (l : list A) (msg : string) :
  (Epp.unique_check l msg = Return tt <-> length l = 1%nat)
  /\ ((exists m, Epp.unique_check l msg = Raise (EmptyError m)) <-> length l = 0%nat)
  /\ ((exists m, Epp.unique_check l msg = Raise (NotUniqueError m)) <-> (1 < length l)%nat)
  /\ (forall m, Epp.unique_check l msg = Raise (EmptyError m)
                \/ Epp.unique_check l msg = Raise (NotUniqueError m) ->
                contains msg m = true).
Proof.
  destruct (unique_check_cases l msg) as [[Hl ->]|[[Hl ->]|[Hl ->]]];
    repeat split; intros;
    repeat match goal with
           | H : exists _, _ |- _ => destruct H
           | H : _ \/ _ |- _ => destruct H
           end;
    simplify_eq; try lia; eauto using contains_suffix.
Qed.

End UniqueCheck.

(** ** [StreamToLogger.write] *)

Section Write.
Import PyStr Spec.

Lemma for_each_log_calls (name : string) (lvl : Z) (msgs : list string) (w : world) :
  exists w',
    for_each msgs (fun m => Logging.log name lvl m) w = (Return tt, w')
    /\ same_env w w'
    /\ calls w' = calls w ++
         map (fun m => {| call_name := name; call_level := lvl; call_msg := m |}) msgs
    /\ root_handlers w' = root_handlers w /\ root_level w' = root_level w.
Proof.
  revert w. induction msgs as [|m msgs IH]; intros w; simpl.
  - eexists; split; [done |]. rewrite app_nil_r. by repeat split.
  - unfold bind.
    destruct (log_returns name lvl m w) as (w1 & -> & He1 & Hc1 & Hh1 & Hl1).
    destruct (IH w1) as (w2 & -> & He2 & Hc2 & Hh2 & Hl2).
    eexists; split; [done |].
    split; [eapply same_env_trans; eauto |].
    split; [| split; congruence].
    rewrite Hc2, Hc1, <- app_assoc. done.
Qed.

Lemma for_each_map {A B} (f : A -> B) (xs : list A) (body : B -> M unit) :
  for_each (map f xs) body = for_each xs (fun x => body (f x)).
Proof. induction xs as [|x xs IH]; simpl; [done | by rewrite IH]. Qed.

(** What [write] does, for any buffer. *)
Lemma write_calls (self : StreamToLogger) (buf : string) (w : world) :
  exists w',
    Epp.write self buf w = (Return tt, w')
    /\ same_env w w'
    /\ calls w' = calls w ++ map (record_of_line self) (splitlines (rstrip buf))
    /\ root_handlers w' = root_handlers w /\ root_level w' = root_level w.
Proof.
  unfold Epp.write.
  rewrite <- (for_each_map rstrip (splitlines (rstrip buf))
                (fun m => Logging.log (logger self) (log_level self) m)).
  destruct (for_each_log_calls (logger self) (log_level self)
              (map rstrip (splitlines (rstrip buf))) w) as (w' & Hrun & He & Hc & Hh & Hl).
  exists w'. split; [done |]. split; [done |]. split; [| done].
  rewrite Hc, map_map. done.
Qed.

(** C2, as the code has it.  One call of [write] hands to the logger,
    before it returns, one record for each line of the buffer stripped
    on the right, in order and at the level of the stream, with the
    line's own trailing whitespace stripped; so no message ends in
    whitespace or holds a line boundary.  A line that is empty or blank
    inside the buffer gets its record too, with the empty message; only
    a buffer of nothing but whitespace gives no record.  The object keeps
    nothing back: what is in [linebuf] plays no part. *)
Theorem write_one_record_per_line (self : StreamToLogger) (buf : string) (w : world) :
  exists w',
    Epp.write self buf w = (Return tt, w')
    /\ calls w' = calls w ++ map (record_of_line self) (splitlines (rstrip buf))
    /\ Forall (fun c => call_name c = logger self /\ call_level c = log_level self
                        /\ ends_with_space (call_msg c) = false
                        /\ has_linebreak (call_msg c) = false)
              (map (record_of_line self) (splitlines (rstrip buf)))
    /\ (rstrip buf = EmptyString <-> calls w' = calls w)
    /\ (forall kept,
          Epp.write {| logger := logger self; log_level := log_level self;
                       linebuf := kept |} buf w = Epp.write self buf w).
Proof.
  destruct (write_calls self buf w) as (w' & Hrun & He & Hc & Hh & Hl).
  exists w'. split; [done |]. split; [done |]. split; [| split].
  - apply Forall_map.
    eapply Forall_impl; [apply splitlines_linebreak_free |].
    intros line Hline. simpl. repeat split.
    + apply rstrip_no_trailing_space.
    + by apply rstrip_keeps_linebreak_free.
  - rewrite Hc. split.
    + intros ->. simpl. by rewrite app_nil_r.
    + intros Heq. destruct (rstrip buf) as [|c r] eqn:E; [done |].
      exfalso.
      assert (Hlen : length (calls w ++ map (record_of_line self) (splitlines (String c r)))
                     = length (calls w)) by (by rewrite Heq).
      rewrite length_app, length_map in Hlen.
      assert (splitlines (String c r) <> []).
      { simpl. destruct (islinebreak c); [done |]. by destruct (splitlines r). }
      destruct (splitlines (String c r)); [done | simpl in Hlen; lia].
  - intros kept. reflexivity.
Qed.

(** C2 as stated fails: the two boundaries in a row between [a] and [b]
    enclose an empty line, and [write] makes a record of it. *)
Lemma write_records_an_empty_line :
  ~ (forall (self : StreamToLogger) (buf : string) (w : world) (c : log_call),
       In c (skipn (length (calls w)) (calls (snd (Epp.write self buf w)))) ->
       call_msg c <> EmptyString).
Proof.
  intros H.
  apply (H Sample.stdout_capture ("a" +:+ Sample.LF +:+ Sample.LF +:+ "b") Sample.fresh
           {| call_name := "STDOUT"; call_level := Logging.INFO; call_msg := EmptyString |});
    [| reflexivity].
  vm_compute. tauto.
Qed.

End Write.

(** ** [EppLogger.prepend_old_log] *)

Section Prepend.
Import PyStr PosixPath Spec.

Lemma Artifact_files_same_world (lims : option Lims) (id : string) (w : world) :
  snd (Artifact_files lims id w) = w.
Proof. by destruct lims. Qed.

Lemma reads_only_bind {A B} (m : M A) (k : A -> M B) :
  reads_only m -> (forall a, reads_only (k a)) -> reads_only (bind m k).
Proof.
  intros Hm Hk w. unfold bind. specialize (Hm w).
  destruct (m w) as [[a|e] w1]; simpl in *; subst; [apply Hk | done].
Qed.

Lemma reads_only_str_split (s sep : string) : reads_only (str_split s sep).
Proof. intros w. unfold str_split. by destruct (split sep s). Qed.

Lemma reads_only_subscript {A} (l : list A) (i : nat) : reads_only (subscript l i).
Proof. intros w. unfold subscript. by destruct (l !! i). Qed.

Lemma local_path_same_world (location : string) (w : world) :
  snd (Epp.local_path location w) = w.
Proof.
  revert w. change (reads_only (Epp.local_path location)).
  unfold Epp.local_path.
  apply reads_only_bind; [done |]. intros base.
  apply reads_only_bind; [apply reads_only_str_split |]. intros parts.
  apply reads_only_bind; [apply reads_only_subscript |]. intros authority.
  apply reads_only_bind; [apply reads_only_str_split |]. intros pieces.
  apply reads_only_subscript.
Qed.

Lemma keeps_env_prepend_old_log (lims : option Lims) (log_file : string) :
  keeps_env (Epp.prepend_old_log lims log_file).
Proof.
  unfold Epp.prepend_old_log. apply keeps_env_try_except.
  - apply keeps_envL_bind.
    + apply keeps_envL_lift. intros w. rewrite Artifact_files_same_world.
      apply same_env_refl.
    + intros [|file0 files]; [apply keeps_envL_lift, keeps_env_ret |].
      apply keeps_envL_bind.
      * apply keeps_envL_lift. intros w. rewrite local_path_same_world.
        apply same_env_refl.
      * intros path. apply keeps_envL_bind; [apply keeps_envL_assign |].
        intros _. apply keeps_envL_lift.
        apply keeps_env_bind; [apply keeps_env_read |].
        intros dir. apply keeps_env_bind; [apply keeps_env_copy |].
        intros _. apply keeps_env_ret.
  - intros log_path e. destruct (is_HTTPError e); [apply keeps_env_root_log |].
    destruct (is_IOError e); [| apply keeps_env_raise].
    destruct log_path as [path|]; [| apply keeps_env_raise].
    apply keeps_env_bind; [apply keeps_env_root_log | intros; apply keeps_env_raise].
Qed.

(** How the [try] block of [prepend_old_log] ends when the lookup
    raises: the handlers run with [log_path] unbound. *)
Lemma prepend_lookup_raises (lims : option Lims) (log_file : string) (w : world) (e : exn) :
  fst (Artifact_files lims log_file w) = Raise e ->
  Epp.prepend_old_log lims log_file w =
    (if is_HTTPError e then
       Logging.warning ("No log file artifact found for id: " +:+ log_file)
     else if is_IOError e then raise (UnboundLocalError "log_path")
     else raise e) w.
Proof.
  intros H. unfold Epp.prepend_old_log. run.
  pose proof (Artifact_files_same_world lims log_file w) as Hw.
  destruct (Artifact_files lims log_file w) as [r w0]. simpl in *. subst.
  by destruct (is_HTTPError e), (is_IOError e).
Qed.

(** C3, as the code has it.  When the lookup of the artifact ends in an
    [HTTPError], whatever its status, [prepend_old_log] does what one
    call of [logging.warning] does and no more: the warning is logged,
    nothing is copied, nothing is raised.  An exception of the lookup
    that is neither an [HTTPError] nor an [IOError] reaches the caller
    as it is, with the world untouched. *)
Theorem prepend_lookup_failure (lims : option Lims) (log_file : string) (w : world)
    (e : exn) :
  fst (Artifact_files lims log_file w) = Raise e ->
  (is_HTTPError e = true ->
     Epp.prepend_old_log lims log_file w =
       Logging.warning ("No log file artifact found for id: " +:+ log_file) w
     /\ exists w',
          Epp.prepend_old_log lims log_file w = (Return tt, w')
          /\ calls w' = calls w ++
               [{| call_name := "root"; call_level := Logging.WARNING;
                   call_msg := "No log file artifact found for id: " +:+ log_file |}])
  /\ (is_HTTPError e = false -> is_IOError e = false ->
        Epp.prepend_old_log lims log_file w = (Raise e, w)).
Proof.
  intros H. rewrite (prepend_lookup_raises _ _ _ _ H). split.
  - intros ->. split; [done |].
    destruct (root_log_returns Logging.WARNING
                ("No log file artifact found for id: " +:+ log_file) w)
      as (w' & Hrun & _ & Hc).
    exists w'. by split.
  - by intros -> ->.
Qed.

Lemma prepend_lookup_failure_witness :
  Epp.prepend_old_log (Some Sample.lims_server_error) "run.log" Sample.fresh =
    Logging.warning "No log file artifact found for id: run.log" Sample.fresh.
Proof.
  apply (prepend_lookup_failure (Some Sample.lims_server_error) "run.log" Sample.fresh
           (HTTPError 500)); reflexivity.
Defined.

(** C3 as stated fails: a server error (status 500) is a remote error
    other than "no such artifact" (status 404), yet it does not reach
    the caller; it is logged as a missing artifact and the run goes on. *)
Lemma server_error_is_not_propagated :
  ~ (forall (lims : option Lims) (log_file : string) (w : world) (e : exn),
       fst (Artifact_files lims log_file w) = Raise e ->
       e <> HTTPError 404 ->
       fst (Epp.prepend_old_log lims log_file w) = Raise e).
Proof.
  intros H.
  specialize (H (Some Sample.lims_server_error) "run.log" Sample.fresh (HTTPError 500)
                eq_refl).
  assert (Hne : HTTPError 500 <> HTTPError 404) by discriminate.
  specialize (H Hne). vm_compute in H. discriminate.
Qed.

(** How [prepend_old_log] goes on once the path of the old log is
    known: it is the copy that decides. *)
Lemma prepend_reaches_copy (remote : Lims) (log_file : string) (w : world)
    (location : string) (others : list string) (path : string) :
  remote log_file = Return (location :: others) ->
  fst (Epp.local_path location w) = Return path ->
  Epp.prepend_old_log (Some remote) log_file w =
    match Shutil.copy path (join (cwd w) log_file) w with
    | (Return _, w1) => (Return tt, w1)
    | (Raise e, w1) =>
        (if is_HTTPError e then
           Logging.warning ("No log file artifact found for id: " +:+ log_file)
         else if is_IOError e then
           Logging.error ("Log could not be prepended, make sure " +:+ path
                          +:+ " and " +:+ log_file +:+ " are proper paths.") ;>
           raise e
         else raise e) w1
    end.
Proof.
  intros Hremote Hpath.
  pose proof (local_path_same_world location w) as Hw.
  unfold Epp.prepend_old_log, try_except, bindL, lift, assign, Artifact_files.
  rewrite Hremote. cbv beta iota zeta.
  destruct (Epp.local_path location w) as [r w0]. simpl in Hpath, Hw. subst.
  unfold bind at 1, OS.getcwd at 1, read at 1. unfold bind at 1.
  destruct (Shutil.copy path (join (cwd w) log_file) w) as [[d|e] w1]; reflexivity.
Qed.

(** C7.  When the copy of the old log fails, the failure is an
    [IOError]; [prepend_old_log] logs one error that names both the
    source path and the log file, and then raises the very exception
    of the copy. *)
Theorem prepend_copy_failure (remote : Lims) (log_file : string) (w w1 : world)
    (location : string) (others : list string) (path : string) (e : exn) :
  remote log_file = Return (location :: others) ->
  fst (Epp.local_path location w) = Return path ->
  Shutil.copy path (join (cwd w) log_file) w = (Raise e, w1) ->
  exists w' msg,
    Epp.prepend_old_log (Some remote) log_file w = (Raise e, w')
    /\ is_IOError e = true
    /\ calls w' = calls w ++
         [{| call_name := "root"; call_level := Logging.ERROR; call_msg := msg |}]
    /\ contains path msg = true /\ contains log_file msg = true.
Proof.
  intros Hremote Hpath Hcopy.
  rewrite (prepend_reaches_copy _ _ _ _ _ _ Hremote Hpath), Hcopy.
  destruct (copy_failure _ _ _ _ _ Hcopy) as [[what ->] ->].
  set (msg := "Log could not be prepended, make sure " +:+ path
              +:+ " and " +:+ log_file +:+ " are proper paths.").
  destruct (root_log_returns Logging.ERROR msg w) as (w' & Hrun & _ & Hc).
  exists w', msg.
  split.
  - simpl. unfold bind, Logging.error. rewrite Hrun. done.
  - split; [done |]. split; [done |]. split.
    + apply (contains_app "Log could not be prepended, make sure ").
    + unfold msg.
      rewrite <- (str_app_assoc "Log could not be prepended, make sure " path).
      rewrite <- (str_app_assoc _ " and ").
      apply contains_app.
Qed.

Lemma prepend_copy_failure_witness :
  exists w' msg,
    Epp.prepend_old_log (Some Sample.lims_lost_file) "run.log" Sample.fresh
      = (Raise (IOError "No such file or directory: /home/glsftp/lost.log"), w')
    /\ is_IOError (IOError "No such file or directory: /home/glsftp/lost.log") = true
    /\ calls w' = calls Sample.fresh ++
         [{| call_name := "root"; call_level := Logging.ERROR; call_msg := msg |}]
    /\ contains "/home/glsftp/lost.log" msg = true /\ contains "run.log" msg = true.
Proof.
  apply (prepend_copy_failure Sample.lims_lost_file "run.log" Sample.fresh Sample.fresh
           "sftp://lims.example.org/home/glsftp/lost.log" [] "/home/glsftp/lost.log");
    reflexivity.
Defined.

Lemma local_path_foreign (w : world) (location : string) (parts : list string)
    (authority : string) :
  split ":" (BASEURI w) = Some parts ->
  parts !! 1%nat = Some authority ->
  is_empty authority = false ->
  contains authority location = false ->
  Epp.local_path location w = (Raise IndexError, w).
Proof.
  intros Hparts Hauth Hne Habsent.
  unfold Epp.local_path, bind, read, str_split, subscript, ret, raise.
  rewrite Hparts. cbv beta iota zeta. rewrite Hauth. cbv beta iota zeta.
  rewrite (split_absent _ _ Hne Habsent). reflexivity.
Qed.

(** C10.  When the content location of the artifact's first file does
    not contain the authority part of the base URI, the split leaves
    one piece, the subscript [[1]] raises [IndexError], and since the
    [try] block has a handler for neither that class nor a parent of it,
    the exception leaves [prepend_old_log] with nothing logged and
    nothing copied. *)
Theorem prepend_foreign_location (remote : Lims) (log_file : string) (w : world)
    (location : string) (others parts : list string) (authority : string) :
  remote log_file = Return (location :: others) ->
  split ":" (BASEURI w) = Some parts ->
  parts !! 1%nat = Some authority ->
  is_empty authority = false ->
  contains authority location = false ->
  Epp.prepend_old_log (Some remote) log_file w = (Raise IndexError, w)
  /\ is_HTTPError IndexError = false /\ is_IOError IndexError = false.
Proof.
  intros Hremote Hparts Hauth Hne Habsent. split; [| done].
  unfold Epp.prepend_old_log, try_except, bindL, lift, assign, Artifact_files.
  rewrite Hremote. cbv beta iota zeta.
  rewrite (local_path_foreign _ _ _ _ Hparts Hauth Hne Habsent). reflexivity.
Qed.

Lemma prepend_foreign_location_witness :
  Epp.prepend_old_log (Some Sample.lims_elsewhere) "run.log" Sample.fresh
    = (Raise IndexError, Sample.fresh)
  /\ is_HTTPError IndexError = false /\ is_IOError IndexError = false.
Proof.
  apply (prepend_foreign_location Sample.lims_elsewhere "run.log" Sample.fresh
           "sftp://files.example.com/home/glsftp/old.log" []
           ["https"; "//lims.example.org"; "8443"] "//lims.example.org");
    reflexivity.
Defined.

End Prepend.

(** ** [EppLogger] as a context manager *)

Section ContextManager.
Import PyStr PosixPath Spec.

Lemma bind_returns {A B} (m : M A) (k : A -> M B) (w w' : world) (b : B) :
  bind m k w = (Return b, w') ->
  exists a w1, m w = (Return a, w1) /\ k a w1 = (Return b, w').
Proof.
  unfold bind. destruct (m w) as [[a|e] w1]; [eauto | discriminate].
Qed.


Lemma exit_runs (self : Epp.EppLogger) (exc : option exn) (w : world) :
  Epp.__exit__ self exc w =
    (Return false,
     match exc with
     | None =>
         set_sys_stdout (Epp.saved_stdout self)
           (set_sys_stderr (Epp.saved_stderr self) (set_shut_down true w))
     | Some _ => w
     end).
Proof. by destruct exc. Qed.

(** [__init__] saves the streams that it finds. *)
Lemma init_saves_streams (log_file : string) (level : Z) (lims : option Lims)
    (prepend : bool) (w w0 : world) (manager : Epp.EppLogger) :
  Epp.__init__ log_file level lims prepend w = (Return manager, w0) ->
  Epp.saved_stdout manager = sys_stdout w /\ Epp.saved_stderr manager = sys_stderr w.
Proof.
  unfold Epp.__init__. intros H.
  apply bind_returns in H as (? & wa & Ha & H).
  apply bind_returns in H as (? & wb & Hb & H).
  assert (He : same_env w wb).
  { eapply same_env_trans.
    - destruct prepend.
      + pose proof (keeps_env_prepend_old_log lims log_file w) as Hk.
        rewrite Ha in Hk. exact Hk.
      + pose proof (keeps_env_ret tt w) as Hk. rewrite Ha in Hk. exact Hk.
    - pose proof (keeps_env_basicConfig (Some level) EPP_FORMAT (Some log_file) wa) as Hk.
      rewrite Hb in Hk. exact Hk. }
  destruct He as (_ & _ & _ & _ & Hout & Herr & _).
  run. simplify_eq. simpl. by split.
Qed.

(** C1.  For a run of [with EppLogger(...)] whose [__init__] and
    [__enter__] have returned: when the block returns, [__exit__] shuts
    logging down and binds [sys.stdout] and [sys.stderr] to what they
    were bound to before [__init__], and changes nothing else; when the
    block raises, [__exit__] changes nothing at all, and the exception
    of the block is what the [with] statement raises.  In either case
    [__exit__] returns [False], which swallows nothing. *)
Theorem with_exit_restores_or_propagates {A} (log_file : string) (level : Z)
    (lims : option Lims) (prepend : bool) (block : Epp.EppLogger -> M A)
    (w w0 w1 : world) (manager epp : Epp.EppLogger) :
  Epp.__init__ log_file level lims prepend w = (Return manager, w0) ->
  Epp.__enter__ manager w0 = (Return epp, w1) ->
  (forall exc w2, fst (Epp.__exit__ manager exc w2) = Return false)
  /\ match block epp w1 with
     | (Return a, w2) =>
         Epp.with_EppLogger log_file level lims prepend block w =
           (Return (Some a),
            set_sys_stdout (sys_stdout w)
              (set_sys_stderr (sys_stderr w) (set_shut_down true w2)))
     | (Raise e, w2) =>
         Epp.with_EppLogger log_file level lims prepend block w = (Raise e, w2)
     end.
Proof.
  intros Hinit Henter. split; [intros exc w2; by rewrite exit_runs |].
  destruct (init_saves_streams _ _ _ _ _ _ _ Hinit) as [Hout Herr].
  unfold Epp.with_EppLogger, bind. rewrite Hinit, Henter.
  destruct (block epp w1) as [[a|e] w2]; rewrite exit_runs; [| done].
  by rewrite Hout, Herr.
Qed.

Lemma with_exit_witness :
  fst (Epp.with_EppLogger "run.log" Logging.INFO None false Sample.failing_block
         Sample.fresh)
    = Raise (ValueError "no such sample").
Proof.
  assert (Hinit : Epp.__init__ "run.log" Logging.INFO None false Sample.fresh
                  = (Return Sample.manager,
                     snd (Epp.__init__ "run.log" Logging.INFO None false Sample.fresh)))
    by computed.
  assert (Henter : Epp.__enter__ Sample.manager
                     (snd (Epp.__init__ "run.log" Logging.INFO None false Sample.fresh))
                   = (Return Sample.manager, Sample.inside_block))
    by computed.
  destruct (with_exit_restores_or_propagates "run.log" Logging.INFO None false
              Sample.failing_block Sample.fresh _ _ _ _ Hinit Henter) as [_ H].
  destruct (Sample.failing_block Sample.manager Sample.inside_block)
    as [[a|e] w2] eqn:Hblock; vm_compute in Hblock; [discriminate |].
  rewrite H. simpl. congruence.
Defined.

End ContextManager.

(** ** Paths *)

Section PathFacts.
Import PyStr PosixPath Spec.

Lemma has_char_app (c : ascii) (a b : string) :
  has_char c (a +:+ b) = has_char c a || has_char c b.
Proof.
  induction a as [|x a' IH]; [done |].
  rewrite str_app_cons. simpl. by rewrite IH, orb_assoc.
Qed.

Lemma basename_slash_free (p : string) : has_char slash (basename p) = false.
Proof.
  induction p as [|c rest IH]; [done |]. simpl.
  destruct (has_char slash rest) eqn:Hrest; [exact IH |].
  destruct (Ascii.eqb c slash) eqn:Hc; [exact Hrest |].
  simpl. by rewrite Hc, Hrest.
Qed.

Lemma basename_of_slash_free (p : string) :
  has_char slash p = false -> basename p = p.
Proof.
  destruct p as [|c rest]; [done |]. simpl.
  intros H. apply orb_false_iff in H as [Hc Hrest]. by rewrite Hrest, Hc.
Qed.

Lemma basename_after_slash (a b : string) :
  basename (a +:+ String slash b) = basename b.
Proof.
  induction a as [|c a' IH].
  - rewrite str_app_empty_l. simpl.
    destruct (has_char slash b) eqn:Hb; [done |].
    by rewrite basename_of_slash_free.
  - rewrite str_app_cons. simpl.
    rewrite has_char_app. simpl. rewrite orb_true_r. exact IH.
Qed.

Lemma head_part_of_slash_free (p : string) :
  has_char slash p = false -> head_part p = EmptyString.
Proof. destruct p as [|c rest]; [done |]. simpl. by intros ->. Qed.

Lemma head_part_before_slash (a b : string) :
  has_char slash b = false ->
  head_part (a +:+ String slash b) = a +:+ String slash EmptyString.
Proof.
  intros Hb. induction a as [|c a' IH].
  - rewrite !str_app_empty_l. simpl. by rewrite head_part_of_slash_free.
  - rewrite !str_app_cons.
    change (head_part (String c (a' +:+ String slash b)))
      with (if has_char slash (String c (a' +:+ String slash b))
            then String c (head_part (a' +:+ String slash b)) else EmptyString).
    simpl. rewrite has_char_app. simpl. rewrite !orb_true_r. by rewrite IH.
Qed.

Lemma ends_with_slash_split (a : string) :
  ends_with_char slash a = true -> exists a', a = a' +:+ String slash EmptyString.
Proof.
  induction a as [|c rest IH]; [done |]. simpl.
  destruct rest as [|c' rest'].
  - intros H. apply Ascii.eqb_eq in H as ->. by exists EmptyString.
  - intros H. destruct (IH H) as [a' Ha']. exists (String c a').
    by rewrite str_app_cons, <- Ha'.
Qed.

Lemma all_slashes_false (d : string) :
  d <> EmptyString -> ends_with_char slash d = false -> all_slashes d = false.
Proof.
  induction d as [|c rest IH]; [done |]. intros _. simpl.
  destruct rest as [|c' rest'].
  - intros ->. done.
  - intros H. rewrite IH; [apply andb_false_r | done | exact H].
Qed.

Lemma all_slashes_app (a b : string) :
  all_slashes (a +:+ b) = all_slashes a && all_slashes b.
Proof.
  induction a as [|c a' IH]; [done |].
  rewrite str_app_cons. simpl. by rewrite IH, andb_assoc.
Qed.

Lemma rstrip_slashes_added (d : string) :
  d <> EmptyString -> ends_with_char slash d = false ->
  rstrip_slashes (d +:+ String slash EmptyString) = d.
Proof.
  induction d as [|c rest IH]; [done |]. intros _.
  rewrite str_app_cons. simpl.
  destruct rest as [|c' rest'].
  - intros ->. done.
  - intros H. rewrite IH; [done | done | exact H].
Qed.

Lemma basename_join (a b : string) : basename (join a b) = basename b.
Proof.
  unfold join. destruct (startswith "/" b) eqn:Hb; [done |].
  destruct (is_empty a || ends_with_char slash a) eqn:Ha.
  - apply orb_true_iff in Ha as [Ha|Ha].
    + destruct a; [done | discriminate].
    + destruct (ends_with_slash_split _ Ha) as [a' ->].
      rewrite str_app_assoc. apply basename_after_slash.
  - apply (basename_after_slash a b).
Qed.

Lemma slash_free_not_absolute (name : string) :
  has_char slash name = false -> startswith "/" name = false.
Proof.
  destruct name as [|c rest]; [done |].
  intros H. apply orb_false_iff in H as [Hc _].
  change (startswith "/" (String c rest))
    with (if Ascii.eqb slash c then startswith EmptyString rest else false).
  rewrite Ascii.eqb_sym. by rewrite Hc.
Qed.

(** A name without a slash, joined to a directory as [os.getcwd()] gives
    it, lies directly in that directory. *)
Lemma dirname_join (d name : string) :
  normal_dir d = true -> has_char slash name = false ->
  dirname (join d name) = d.
Proof.
  intros Hd Hname. unfold normal_dir, absolute in Hd.
  apply andb_true_iff in Hd as [Habs Hd].
  unfold join. rewrite (slash_free_not_absolute _ Hname).
  apply orb_true_iff in Hd as [Hroot|Hend].
  - apply String.eqb_eq in Hroot as ->. simpl.
    change ("/" +:+ name) with (EmptyString +:+ String slash name).
    unfold dirname. rewrite (head_part_before_slash _ _ Hname). done.
  - apply negb_true_iff in Hend. rewrite Hend.
    assert (Hne : d <> EmptyString) by (by destruct d).
    replace (is_empty d) with false by (by destruct d). simpl.
    change (d +:+ "/" +:+ name) with (d +:+ String slash name).
    unfold dirname. rewrite (head_part_before_slash _ _ Hname).
    rewrite all_slashes_app, (all_slashes_false _ Hne Hend). simpl.
    by apply rstrip_slashes_added.
Qed.

Lemma join_absolute (a b : string) : absolute a = true -> absolute (join a b) = true.
Proof.
  unfold absolute, join. intros Ha.
  destruct (startswith "/" b) eqn:Hb; [done |].
  destruct a as [|c a']; [done |]. simpl in Ha.
  destruct (is_empty (String c a') || ends_with_char slash (String c a'));
    rewrite !str_app_cons; simpl; exact Ha.
Qed.

Lemma join_onto_absolute (a b : string) : absolute b = true -> join a b = b.
Proof. unfold absolute, join. by intros ->. Qed.

(** What is joined to an absolute working directory resolves to
    itself. *)
Lemma resolve_joined (w : world) (p : string) :
  absolute (cwd w) = true -> OS.resolve w (join (cwd w) p) = join (cwd w) p.
Proof.
  intros Habs. unfold OS.resolve.
  apply join_onto_absolute, join_absolute, Habs.
Qed.

Lemma ends_with_char_app (c : ascii) (a b : string) :
  b <> EmptyString -> ends_with_char c (a +:+ b) = ends_with_char c b.
Proof.
  intros Hb. induction a as [|x a' IH]; [done |].
  rewrite str_app_cons. simpl.
  destruct (a' +:+ b) as [|y r] eqn:E; [| exact IH].
  destruct a'; [by rewrite str_app_empty_l in E | by rewrite str_app_cons in E].
Qed.

Lemma slash_free_no_slash_end (name : string) :
  has_char slash name = false -> ends_with_char slash name = false.
Proof.
  induction name as [|c rest IH]; [done |]. simpl.
  intros H. apply orb_false_iff in H as [Hc Hrest].
  destruct rest; [exact Hc | by apply IH].
Qed.

End PathFacts.

(** ** [attach_file] *)

Section AttachFile.
Import PyStr PosixPath Spec.

(** [attach_file] is its copy: it returns the location it computed
    whenever the copy returns. *)
Lemma attach_file_runs (src : string) (resource : Resource.t) (w : world) :
  Epp.attach_file src resource w =
    match Shutil.copy src (join (cwd w) (Resource.id resource +:+ "_" +:+ basename src)) w with
    | (Return _, w') =>
        (Return (join (cwd w) (Resource.id resource +:+ "_" +:+ basename src)), w')
    | (Raise e, w') => (Raise e, w')
    end.
Proof.
  unfold Epp.attach_file, OS.getcwd, bind, read, ret.
  by destruct (Shutil.copy _ _ w) as [[d|e] w'].
Qed.

(** When the conditions of a copy are met, it happens. *)
Lemma copy_runs (src dst : string) (w : world) (data : string) :
  fs w !! OS.resolve w src = Some (File data) ->
  OS.resolve w src <> OS.resolve w dst ->
  ends_with_char slash (OS.resolve w dst) = false ->
  fs w !! OS.resolve w dst <> Some Dir ->
  fs w !! dirname (OS.resolve w dst) = Some Dir ->
  Shutil.copy src dst w =
    (Return dst, set_fs (<[OS.resolve w dst := File data]> (fs w)) w).
Proof.
  intros Hsrc Hne Hend Hnodir Hparent.
  unfold Shutil.copy, Shutil.copyfile, Shutil._samefile, OS.isdir, OS.names_dir,
    OS.write_file, OS.read_file, OS.writable, bind, read, ret, raise, update.
  assert (Heqb : String.eqb (OS.resolve w src) (OS.resolve w dst) = false)
    by (by apply String.eqb_neq).
  destruct (fs w !! OS.resolve w dst) as [[d|]|] eqn:Hdst; [| done |];
    rewrite Heqb; simpl; rewrite Hsrc, Hend, Hdst; [done |].
  by rewrite Hparent.
Qed.

Lemma attached_name_differs (src ident : string) (w : world) :
  has_char slash ident = false ->
  OS.resolve w src <> join (cwd w) (ident +:+ "_" +:+ basename src).
Proof.
  intros Hid Heq. apply (f_equal basename) in Heq.
  unfold OS.resolve in Heq. rewrite !basename_join in Heq.
  rewrite (basename_of_slash_free (ident +:+ "_" +:+ basename src)) in Heq.
  - apply (f_equal String.length) in Heq.
    rewrite !str_length_app in Heq. simpl in Heq. lia.
  - rewrite !has_char_app, Hid, basename_slash_free. done.
Qed.




(** C9, as the code has it.  A call of [attach_file] that returns has
    read the source and has written what it read to one path: the
    location it returns, or, when that is a directory, the entry of
    that directory with the base name of the source.  That path is not
    the source's, so the source is as it was; the entry is new only if
    the path named nothing before; no other entry and nothing else in
    the world has changed. *)
Theorem attach_file_frame (src : string) (resource : Resource.t) (w w' : world)
    (location : string) :
  Epp.attach_file src resource w = (Return location, w') ->
  exists data written_to,
    location = join (cwd w) (Resource.id resource +:+ "_" +:+ basename src)
    /\ written_to = OS.resolve w (if OS.names_dir w location
                                  then join location (basename src) else location)
    /\ fs w !! OS.resolve w src = Some (File data)
    /\ OS.resolve w src <> written_to
    /\ w' = set_fs (<[written_to := File data]> (fs w)) w
    /\ fs w' !! OS.resolve w src = Some (File data)
    /\ (forall p, p <> written_to -> fs w' !! p = fs w !! p)
    /\ dom (fs w') = {[written_to]} ∪ dom (fs w).
Proof.
  rewrite attach_file_runs. intros H.
  destruct (Shutil.copy _ _ w) as [[d|e] w1] eqn:Hcopy; [| discriminate].
  injection H as <- <-.
  destruct (copy_success _ _ _ _ _ Hcopy) as (data & -> & Hsrc & Hne & ->).
  exists data. eexists. split; [done |]. split; [done |]. split; [done |].
  split; [done |]. split; [done |]. simpl. split; [| split].
  - by rewrite lookup_insert_ne.
  - intros p Hp. by rewrite lookup_insert_ne.
  - apply dom_insert_L.
Qed.

Lemma attach_file_frame_witness :
  exists data written_to,
    "/work/ABC123_report.txt" = join "/work" ("ABC123" +:+ "_" +:+ basename "/data/report.txt")
    /\ written_to = "/work/ABC123_report.txt"
    /\ Sample.files !! "/data/report.txt" = Some (File data)
    /\ "/data/report.txt" <> written_to
    /\ fs (snd (Epp.attach_file "/data/report.txt" {| Resource.id := "ABC123" |} Sample.fresh))
         !! "/data/report.txt" = Some (File data).
Proof.
  destruct (attach_file_frame "/data/report.txt" {| Resource.id := "ABC123" |}
              Sample.fresh
              (snd (Epp.attach_file "/data/report.txt" {| Resource.id := "ABC123" |}
                      Sample.fresh))
              "/work/ABC123_report.txt")
    as (data & written_to & H1 & H2 & H3 & H4 & _ & H6 & _); [computed |].
  exists data, written_to. vm_compute in H2.
  split; [exact H1 |]. split; [exact H2 |]. split; [exact H3 |]. split; [exact H4 |].
  exact H6.
Defined.

(** C9 as stated fails: when the attachment of an earlier run is still
    in its place, the call succeeds and writes over it; no file is
    new. *)
Lemma attach_file_may_create_nothing :
  ~ (forall (src : string) (resource : Resource.t) (w w' : world) (location : string),
       Epp.attach_file src resource w = (Return location, w') ->
       exists p, fs w !! p = None /\ is_Some (fs w' !! p)).
Proof.
  intros H.
  destruct (H "/data/report.txt" {| Resource.id := "ABC123" |} Sample.rerun
              (set_fs (<["/work/ABC123_report.txt" := File "results"]> (fs Sample.rerun))
                 Sample.rerun)
              "/work/ABC123_report.txt")
    as (p & Hold & Hnew); [computed |].
  simpl in Hnew. destruct (decide (p = "/work/ABC123_report.txt")) as [->|Hp].
  - vm_compute in Hold. discriminate.
  - rewrite lookup_insert_ne in Hnew by done.
    change (fs Sample.rerun) with
      (<["/work/ABC123_report.txt" := File "stale"]> Sample.files) in Hold.
    rewrite Hold in Hnew. by destruct Hnew.
Qed.

End AttachFile.

(** ** The log file of a run *)

Section LogFile.
Import PyStr PosixPath Spec.

Variables (target : string) (level : Z) (base : gmap string node) (ref : world).

Lemma rendered_app (t : string) (cs1 cs2 : list log_call) :
  rendered level t (cs1 ++ cs2) = rendered level t cs1 +:+ rendered level t cs2.
Proof.
  induction cs1 as [|c cs1 IH]; simpl; [done |].
  by rewrite IH, str_app_assoc.
Qed.

(** One logging call adds its record, if the level lets it through, at
    the end of the file. *)
Lemma log_appends (name : string) (lvl : Z) (msg : string) (content : string)
    (w : world) :
  logs_to target level base content w -> same_env ref w ->
  exists w',
    Logging.log name lvl msg w = (Return tt, w')
    /\ logs_to target level base
         (content +:+ rendered level (now ref)
                        [{| call_name := name; call_level := lvl; call_msg := msg |}]) w'
    /\ same_env ref w'.
Proof.
  intros (Hh & Hl & Hfs) He.
  assert (Hnow : now w = now ref) by apply He.
  unfold Logging.log, Logging.isEnabledFor, Logging.callHandlers, Logging.emit,
    OS.append_to, bind, read, update, ret.
  cbn [root_handlers root_level add_call now fs for_each bind].
  rewrite Hl. unfold rendered, passes. cbn [call_level].
  destruct ((0 <? lvl) && (level <=? lvl)).
  - cbn -[Logging.format_record]. rewrite Hh. cbn -[Logging.format_record].
    rewrite Hfs, lookup_insert_eq, Hnow.
    eexists. split; [done |]. split.
    + repeat split; cbn -[Logging.format_record]; try done.
      by rewrite insert_insert_eq, str_app_empty_r.
    + eapply same_env_trans; [exact He |]. by repeat split.
  - eexists. split; [done |]. split.
    + repeat split; cbn; try done.
      by rewrite str_app_empty_l, str_app_empty_r.
    + eapply same_env_trans; [exact He |]. by repeat split.
Qed.

Lemma for_each_log_appends (name : string) (lvl : Z) (msgs : list string)
    (content : string) (w : world) :
  logs_to target level base content w -> same_env ref w ->
  exists w',
    for_each msgs (fun m => Logging.log name lvl m) w = (Return tt, w')
    /\ logs_to target level base
         (content +:+ rendered level (now ref)
            (map (fun m => {| call_name := name; call_level := lvl; call_msg := m |}) msgs))
         w'
    /\ same_env ref w'.
Proof.
  revert content w. induction msgs as [|m msgs IH]; intros content w Hinv He.
  - exists w. simpl. by rewrite str_app_empty_r.
  - destruct (log_appends name lvl m content w Hinv He) as (w1 & Hrun1 & Hinv1 & He1).
    destruct (IH _ w1 Hinv1 He1) as (w2 & Hrun2 & Hinv2 & He2).
    exists w2. split; [| split; [| done]].
    + simpl. unfold bind. by rewrite Hrun1.
    + rewrite str_app_assoc in Hinv2.
      change (map _ (m :: msgs)) with
        ([{| call_name := name; call_level := lvl; call_msg := m |}] ++
         map (fun m => {| call_name := name; call_level := lvl; call_msg := m |}) msgs).
      by rewrite rendered_app.
Qed.

Lemma write_appends (self : StreamToLogger) (buf content : string) (w : world) :
  logs_to target level base content w -> same_env ref w ->
  exists w',
    Epp.write self buf w = (Return tt, w')
    /\ logs_to target level base
         (content +:+ rendered level (now ref)
            (map (record_of_line self) (splitlines (rstrip buf)))) w'
    /\ same_env ref w'.
Proof.
  intros Hinv He. unfold Epp.write.
  rewrite <- (for_each_map rstrip (splitlines (rstrip buf))
                (fun m => Logging.log (logger self) (log_level self) m)).
  destruct (for_each_log_appends (logger self) (log_level self)
              (map rstrip (splitlines (rstrip buf))) content w Hinv He)
    as (w' & Hrun & Hinv' & He').
  exists w'. split; [done |]. split; [| done].
  by rewrite map_map in Hinv'.
Qed.

(** Writes to the captured streams end up in the file, record by
    record. *)
Lemma writes_append (ws : list (console * string)) (content : string) (w : world) :
  sys_stdout ref = Captured {| logger := "STDOUT"; log_level := Logging.INFO;
                               linebuf := EmptyString |} ->
  sys_stderr ref = Captured {| logger := "STDERR"; log_level := Logging.ERROR;
                               linebuf := EmptyString |} ->
  logs_to target level base content w -> same_env ref w ->
  exists w',
    writes ws w = (Return tt, w')
    /\ logs_to target level base
         (content +:+ rendered level (now ref) (records_of_writes ws)) w'
    /\ same_env ref w'.
Proof.
  intros Hout Herr. revert content w.
  induction ws as [|[c buf] ws IH]; intros content w Hinv He.
  - exists w. simpl. by rewrite str_app_empty_r.
  - assert (Hstreams : sys_stdout w = sys_stdout ref /\ sys_stderr w = sys_stderr ref)
      by (split; apply He).
    destruct Hstreams as [Hso Hse].
    set (self := match c with
                 | Stdout => {| logger := "STDOUT"; log_level := Logging.INFO;
                                linebuf := EmptyString |}
                 | Stderr => {| logger := "STDERR"; log_level := Logging.ERROR;
                                linebuf := EmptyString |}
                 end).
    destruct (write_appends self buf content w Hinv He) as (w1 & Hrun1 & Hinv1 & He1).
    destruct (IH _ w1 Hinv1 He1) as (w2 & Hrun2 & Hinv2 & He2).
    exists w2. split; [| split; [| done]].
    + unfold writes in *. simpl. unfold bind at 1. unfold sys_write at 1.
      unfold bind at 1, read at 1. simpl.
      assert (Hw : Epp.stream_write
                     (match c with Stdout => sys_stdout | Stderr => sys_stderr end w)
                     buf w = (Return tt, w1)).
      { destruct c; [rewrite Hso, Hout | rewrite Hse, Herr]; exact Hrun1. }
      rewrite Hw. exact Hrun2.
    + rewrite str_app_assoc in Hinv2.
      change (records_of_writes ((c, buf) :: ws)) with
        (map (record_of_line self) (splitlines (rstrip buf)) ++ records_of_writes ws).
      by rewrite rendered_app.
Qed.

End LogFile.

(** ** [EppLogger] with the log of an earlier run *)

Section PrependedLog.
Import PyStr PosixPath Spec.

(** [basicConfig] with a file name, on a root logger without handlers
    and a file that is there: the file is opened as it is. *)
Lemma basicConfig_opens (lvl : Z) (f : format) (name content : string) (w : world) :
  root_handlers w = [] ->
  is_empty name = false ->
  ends_with_char slash (OS.resolve w name) = false ->
  fs w !! OS.resolve w name = Some (File content) ->
  Logging.basicConfig (Some lvl) f (Some name) w =
    (Return tt, set_root [FileHandler (OS.resolve w name) f] lvl w).
Proof.
  intros Hh Hname Hend Hfile.
  unfold Logging.basicConfig, Logging.open_FileHandler, OS.open_append, OS.writable,
    bind, read, ret, update.
  rewrite Hh, Hname, Hend, Hfile. cbn. rewrite Hfile. reflexivity.
Qed.

(** C6, as the code has it.  Let the root logger have no handler yet,
    let the remote system hold an artifact under the name of the log
    file, and let the content location of its first file lead to a
    local file that can be copied to the log file in the working
    directory.  Then [prepend_old_log] copies the old log to the log
    file while the root logger is still without a handler, and it is
    on that state, with the old content in the file, that
    [logging.basicConfig] installs the handler on the file, in append
    mode and without touching the file; [__init__] then binds the
    streams.  After a run whose block writes to [sys.stdout] and
    [sys.stderr], the log file holds the old content followed by the
    records of the run that the level lets through: the version first,
    then one per line written. *)
Theorem prepended_log_is_continued (remote : Lims) (log_file : string) (level : Z)
    (w : world) (location : string) (others : list string) (path old version : string)
    (ws : list (console * string)) :
  let target := join (cwd w) log_file in
  root_handlers w = [] ->
  is_empty log_file = false ->
  absolute (cwd w) = true ->
  remote log_file = Return (location :: others) ->
  fst (Epp.local_path location w) = Return path ->
  fs w !! OS.resolve w path = Some (File old) ->
  OS.resolve w path <> target ->
  ends_with_char slash target = false ->
  fs w !! target <> Some Dir ->
  fs w !! dirname target = Some Dir ->
  distributions w !! Epp.PACKAGE = Some version ->
  exists copied manager w0 w',
    Epp.prepend_old_log (Some remote) log_file w = (Return tt, copied)
    /\ copied = set_fs (<[target := File old]> (fs w)) w
    /\ root_handlers copied = []
    /\ Logging.basicConfig (Some level) EPP_FORMAT (Some log_file) copied
         = (Return tt, set_root [FileHandler target EPP_FORMAT] level copied)
    /\ Epp.__init__ log_file level (Some remote) true w = (Return manager, w0)
    /\ w0 = set_sys_stderr (Captured (Epp.sle manager))
              (set_sys_stdout (Captured (Epp.slo manager))
                 (set_root [FileHandler target EPP_FORMAT] level copied))
    /\ fs w0 = <[target := File old]> (fs w)
    /\ root_handlers w0 = [FileHandler target EPP_FORMAT]
    /\ Epp.with_EppLogger log_file level (Some remote) true (fun _ => writes ws) w
         = (Return (Some tt), w')
    /\ fs w' = <[target := File (old +:+ rendered level (now w)
                                   (version_record version :: records_of_writes ws))]>
                 (fs w).
Proof.
  intros target Hh Hname Habs Hremote Hpath Hold Hne Hend Hnodir Hparent Hdist.
  assert (Hres : OS.resolve w target = target) by (by apply resolve_joined).
  set (wa := set_fs (<[target := File old]> (fs w)) w).
  assert (Hprepend : Epp.prepend_old_log (Some remote) log_file w = (Return tt, wa)).
  { rewrite (prepend_reaches_copy _ _ _ _ _ _ Hremote Hpath). fold target.
    rewrite (copy_runs path target w old); rewrite ?Hres; done. }
  assert (Hconfig : Logging.basicConfig (Some level) EPP_FORMAT (Some log_file) wa
                    = (Return tt, set_root [FileHandler target EPP_FORMAT] level wa)).
  { apply (basicConfig_opens level EPP_FORMAT log_file old wa); try done.
    unfold wa, OS.resolve. cbn. fold target. apply lookup_insert_eq. }
  set (slo := {| logger := "STDOUT"; log_level := Logging.INFO; linebuf := EmptyString |}).
  set (sle := {| logger := "STDERR"; log_level := Logging.ERROR; linebuf := EmptyString |}).
  set (w0 := set_sys_stderr (Captured sle)
               (set_sys_stdout (Captured slo)
                  (set_root [FileHandler target EPP_FORMAT] level wa))).
  set (manager := {| Epp.lims := Some remote; Epp.log_file := log_file;
                     Epp.level := level; Epp.prepend := true;
                     Epp.slo := slo; Epp.saved_stdout := sys_stdout w;
                     Epp.sle := sle; Epp.saved_stderr := sys_stderr w;
                     Epp.self_logger := "root" |}).
  assert (Hinit : Epp.__init__ log_file level (Some remote) true w = (Return manager, w0)).
  { unfold Epp.__init__. unfold bind at 1. rewrite Hprepend.
    unfold bind at 1. rewrite Hconfig. reflexivity. }
  assert (Hinv0 : logs_to target level (fs w) old w0) by (by repeat split).
  destruct (log_appends target level (fs w) w0 "root" Logging.INFO
              ("Version: " +:+ version) old w0 Hinv0 (same_env_refl w0))
    as (w1 & Hlog & Hinv1 & He1).
  assert (Henter : Epp.__enter__ manager w0 = (Return manager, w1)).
  { unfold Epp.__enter__, try_except, lift, require_version, Logging.info,
      Logging.root_log.
    unfold bind at 1. unfold bind at 1.
    change (distributions w0) with (distributions w). rewrite Hdist.
    unfold bind at 1, read at 1.
    change (root_handlers w0) with [FileHandler target EPP_FORMAT].
    unfold bind at 1, ret at 1. rewrite Hlog. reflexivity. }
  destruct (writes_append target level (fs w) w0 ws _ w1 eq_refl eq_refl Hinv1 He1)
    as (w2 & Hwrites & Hinv2 & He2).
  exists wa, manager, w0.
  exists (set_sys_stdout (sys_stdout w)
            (set_sys_stderr (sys_stderr w) (set_shut_down true w2))).
  split; [exact Hprepend |]. split; [done |]. split; [exact Hh |].
  split; [exact Hconfig |]. split; [exact Hinit |].
  split; [done |]. split; [done |]. split; [done |]. split.
  - unfold Epp.with_EppLogger. unfold bind at 1. rewrite Hinit.
    unfold bind at 1. rewrite Henter. rewrite Hwrites. reflexivity.
  - destruct Hinv2 as (_ & _ & Hfs2). cbn. rewrite Hfs2.
    rewrite str_app_assoc, <- rendered_app. reflexivity.
Qed.

Lemma prepended_log_is_continued_witness :
  exists copied manager w0 w',
    Epp.prepend_old_log (Some Sample.lims_with_log) "run.log" Sample.fresh
      = (Return tt, copied)
    /\ fs copied !! "/work/run.log" = Some (File ("old line" +:+ Sample.LF))
    /\ root_handlers copied = []
    /\ Epp.__init__ "run.log" Logging.INFO (Some Sample.lims_with_log) true Sample.fresh
         = (Return manager, w0)
    /\ fs w0 = <["/work/run.log" := File ("old line" +:+ Sample.LF)]> Sample.files
    /\ root_handlers w0 = [FileHandler "/work/run.log" EPP_FORMAT]
    /\ Epp.with_EppLogger "run.log" Logging.INFO (Some Sample.lims_with_log) true
         (fun _ => writes [(Stdout, "started" +:+ Sample.LF); (Stderr, "oops")])
         Sample.fresh
         = (Return (Some tt), w')
    /\ fs w' !! "/work/run.log" =
         Some (File ("old line" +:+ Sample.LF
                     +:+ "2013-05-05 10:00:00,000:INFO:root:Version: 0.3.1" +:+ Sample.LF
                     +:+ "2013-05-05 10:00:00,000:INFO:STDOUT:started" +:+ Sample.LF
                     +:+ "2013-05-05 10:00:00,000:ERROR:STDERR:oops" +:+ Sample.LF)).
Proof.
  destruct (prepended_log_is_continued Sample.lims_with_log "run.log" Logging.INFO
              Sample.fresh "sftp://lims.example.org/home/glsftp/old.log" []
              "/home/glsftp/old.log" ("old line" +:+ Sample.LF) "0.3.1"
              [(Stdout, "started" +:+ Sample.LF); (Stderr, "oops")])
    as (copied & manager & w0 & w' & H1 & H2 & H3 & _ & H5 & _ & H7 & H8 & H9 & H10);
    [computed .. |].
  exists copied, manager, w0, w'.
  split; [exact H1 |]. split; [rewrite H2; apply lookup_insert_eq |].
  split; [exact H3 |]. split; [exact H5 |]. split; [exact H7 |]. split; [exact H8 |].
  split; [exact H9 |]. rewrite H10. apply lookup_insert_eq.
Defined.

(** C6 as stated fails: in a process whose root logger has a handler
    already, [logging.basicConfig] installs nothing.  The old log is
    copied to the log file, but the records of the run go where the
    earlier handler sends them, and the log file holds the old content
    and no more. *)
Lemma records_miss_the_log_of_a_configured_process :
  ~ (forall (remote : Lims) (log_file : string) (level : Z) (w : world)
       (location : string) (others : list string) (path old version : string)
       (ws : list (console * string)),
       is_empty log_file = false ->
       absolute (cwd w) = true ->
       remote log_file = Return (location :: others) ->
       fst (Epp.local_path location w) = Return path ->
       fs w !! OS.resolve w path = Some (File old) ->
       OS.resolve w path <> join (cwd w) log_file ->
       ends_with_char slash (join (cwd w) log_file) = false ->
       fs w !! join (cwd w) log_file <> Some Dir ->
       fs w !! dirname (join (cwd w) log_file) = Some Dir ->
       distributions w !! Epp.PACKAGE = Some version ->
       exists w',
         Epp.with_EppLogger log_file level (Some remote) true (fun _ => writes ws) w
           = (Return (Some tt), w')
         /\ fs w' !! join (cwd w) log_file =
              Some (File (old +:+ rendered level (now w)
                                    (version_record version :: records_of_writes ws)))).
Proof.
  intros H.
  destruct (H Sample.lims_with_log "run.log" Logging.INFO Cases.configured
              "sftp://lims.example.org/home/glsftp/old.log" []
              "/home/glsftp/old.log" ("old line" +:+ Sample.LF) "0.3.1"
              [(Stdout, "started" +:+ Sample.LF); (Stderr, "oops")])
    as (w' & Hrun & Hfile); [computed .. |].
  assert (Hw : w' = snd (Epp.with_EppLogger "run.log" Logging.INFO
                           (Some Sample.lims_with_log) true
                           (fun _ => writes [(Stdout, "started" +:+ Sample.LF);
                                             (Stderr, "oops")])
                           Cases.configured)) by (by rewrite Hrun).
  subst w'. clear Hrun.
  apply (f_equal (fun n => match n with
                           | Some (File data) => String.length data
                           | _ => O
                           end)) in Hfile.
  vm_compute in Hfile. discriminate Hfile.
Qed.

End PrependedLog.


(** ** The model at work on the sample inputs *)

Section Examples.
Import PyStr PosixPath Spec.

Example splitlines_keeps_an_inner_empty_line :
  splitlines (rstrip ("a" +:+ Sample.LF +:+ Sample.LF +:+ "b  " +:+ Sample.LF))
    = ["a"; EmptyString; "b"].
Proof. reflexivity. Qed.

Example split_of_the_base_uri :
  split ":" (BASEURI Sample.fresh) = Some ["https"; "//lims.example.org"; "8443"].
Proof. reflexivity. Qed.

Example local_path_of_the_old_log :
  fst (Epp.local_path "sftp://lims.example.org/home/glsftp/old.log" Sample.fresh)
    = Return "/home/glsftp/old.log".
Proof. reflexivity. Qed.

(** [print("hello")] writes the text and then the newline: one record. *)
Example print_makes_one_record :
  calls (snd ((Epp.write Sample.stdout_capture "hello" ;>
               Epp.write Sample.stdout_capture Sample.LF) Sample.fresh))
    = [{| call_name := "STDOUT"; call_level := Logging.INFO; call_msg := "hello" |}].
Proof. computed. Qed.

Example enter_without_metadata :
  fst (Epp.__enter__ Sample.manager Sample.broken_install) = Raise (SystemExit (-1)).
Proof. computed. Qed.

(** After the warning about a missing artifact, the root logger has the
    handler that [logging.warning] gave it, and [basicConfig] in
    [__init__] leaves it at that. *)
Example handler_after_a_missing_artifact :
  root_handlers
    (snd (Epp.__init__ "run.log" Logging.INFO (Some Sample.lims_server_error) true
            Sample.fresh))
    = [StreamHandler (Console Stderr) BASIC_FORMAT].
Proof. computed. Qed.

End Examples.

(** * Further properties of the source *)

(** ** [attach_file]: failures, a directory in the way, a second call *)

Section AttachFileMore.
Import PyStr PosixPath Spec.




(** [shutil.copy] onto a directory writes inside it. *)
Lemma copy_into_directory (src dst : string) (w : world) (data : string) :
  fs w !! OS.resolve w src = Some (File data) ->
  fs w !! OS.resolve w dst = Some Dir ->
  OS.resolve w src <> OS.resolve w (join dst (basename src)) ->
  ends_with_char slash (OS.resolve w (join dst (basename src))) = false ->
  fs w !! OS.resolve w (join dst (basename src)) <> Some Dir ->
  fs w !! dirname (OS.resolve w (join dst (basename src))) = Some Dir ->
  Shutil.copy src dst w =
    (Return (join dst (basename src)),
     set_fs (<[OS.resolve w (join dst (basename src)) := File data]> (fs w)) w).
Proof.
  intros Hsrc Hdst Hne Hend Hnodir Hparent.
  unfold Shutil.copy, Shutil.copyfile, Shutil._samefile, OS.isdir, OS.names_dir,
    OS.write_file, OS.read_file, OS.writable, bind, read, ret, raise, update.
  rewrite Hdst.
  assert (Heqb : String.eqb (OS.resolve w src) (OS.resolve w (join dst (basename src)))
                 = false) by (by apply String.eqb_neq).
  rewrite Heqb. simpl. rewrite Hsrc, Hend.
  destruct (fs w !! OS.resolve w (join dst (basename src))) as [[d|]|] eqn:Hinner;
    [done | done |].
  by rewrite Hparent.
Qed.

(** X3.  When the location that [attach_file] computes is an existing
    directory, the copy is made inside that directory, under the base
    name of the source, and [attach_file] still returns the location:
    the path it returns names the directory, not the copy. *)
Theorem attach_file_onto_directory (src : string) (resource : Resource.t) (w : world)
    (data : string) :
  let location := join (cwd w) (Resource.id resource +:+ "_" +:+ basename src) in
  let inside := OS.resolve w (join location (basename src)) in
  fs w !! OS.resolve w src = Some (File data) ->
  fs w !! OS.resolve w location = Some Dir ->
  OS.resolve w src <> inside ->
  ends_with_char slash inside = false ->
  fs w !! inside <> Some Dir ->
  fs w !! dirname inside = Some Dir ->
  exists w',
    Epp.attach_file src resource w = (Return location, w')
    /\ w' = set_fs (<[inside := File data]> (fs w)) w
    /\ fs w' !! OS.resolve w location = Some Dir
    /\ fs w' !! inside = Some (File data).
Proof.
  intros location inside Hsrc Hdir Hne Hend Hnodir Hparent.
  exists (set_fs (<[inside := File data]> (fs w)) w).
  split; [| split; [done | split]].
  - rewrite attach_file_runs. fold location.
    by rewrite (copy_into_directory src location w data).
  - simpl. rewrite lookup_insert_ne; [done |]. intros Heq. by rewrite Heq in Hnodir.
  - simpl. apply lookup_insert_eq.
Qed.

Lemma attach_file_onto_directory_witness :
  exists w',
    Epp.attach_file "/data/report.txt" {| Resource.id := "ABC123" |} Cases.blocked
      = (Return "/work/ABC123_report.txt", w')
    /\ fs w' !! "/work/ABC123_report.txt" = Some Dir
    /\ fs w' !! "/work/ABC123_report.txt/report.txt" = Some (File "results").
Proof.
  destruct (attach_file_onto_directory "/data/report.txt" {| Resource.id := "ABC123" |}
              Cases.blocked "results")
    as (w' & H1 & _ & H3 & H4); [computed .. |].
  exists w'. split; [exact H1 |]. split; [exact H3 | exact H4].
Defined.

(** What [attach_file] does when nothing stands in its way. *)
Lemma attach_file_result (src : string) (resource : Resource.t) (w : world)
    (data : string) :
  fs w !! OS.resolve w src = Some (File data) ->
  has_char slash (Resource.id resource) = false ->
  normal_dir (cwd w) = true ->
  fs w !! cwd w = Some Dir ->
  fs w !! join (cwd w) (Resource.id resource +:+ "_" +:+ basename src) <> Some Dir ->
  Epp.attach_file src resource w =
    (Return (join (cwd w) (Resource.id resource +:+ "_" +:+ basename src)),
     set_fs (<[join (cwd w) (Resource.id resource +:+ "_" +:+ basename src) := File data]>
               (fs w)) w).
Proof.
  intros Hsrc Hid Hcwd Hdir Hnodir.
  set (name := Resource.id resource +:+ "_" +:+ basename src) in *.
  set (location := join (cwd w) name) in *.
  assert (Hname : has_char slash name = false).
  { unfold name. rewrite !has_char_app, Hid, basename_slash_free. done. }
  assert (Habs : absolute (cwd w) = true).
  { unfold normal_dir in Hcwd. by apply andb_true_iff in Hcwd as [? _]. }
  assert (Hres : OS.resolve w location = location) by (by apply resolve_joined).
  assert (Hparent : dirname location = cwd w) by (by apply dirname_join).
  rewrite attach_file_runs. fold name. fold location.
  rewrite (copy_runs src location w data); rewrite ?Hres; try done.
  - by apply attached_name_differs.
  - unfold location, join. rewrite (slash_free_not_absolute _ Hname).
    assert (Hne : name <> EmptyString).
    { unfold name. destruct (Resource.id resource); done. }
    destruct (is_empty (cwd w) || ends_with_char slash (cwd w)).
    + rewrite (ends_with_char_app _ _ _ Hne). by apply slash_free_no_slash_end.
    + rewrite <- str_app_assoc. rewrite (ends_with_char_app _ _ _ Hne).
      by apply slash_free_no_slash_end.
  - by rewrite Hparent.
Qed.

(** X4.  Attaching the same file for the same resource a second time
    changes nothing further: two calls in a row return what one call
    returns and leave the world that one call leaves. *)
Theorem attach_file_twice (src : string) (resource : Resource.t) (w : world)
    (data : string) :
  fs w !! OS.resolve w src = Some (File data) ->
  has_char slash (Resource.id resource) = false ->
  normal_dir (cwd w) = true ->
  fs w !! cwd w = Some Dir ->
  fs w !! join (cwd w) (Resource.id resource +:+ "_" +:+ basename src) <> Some Dir ->
  (Epp.attach_file src resource ;> Epp.attach_file src resource) w
    = Epp.attach_file src resource w.
Proof.
  intros Hsrc Hid Hcwd Hdir Hnodir.
  set (location := join (cwd w) (Resource.id resource +:+ "_" +:+ basename src)) in *.
  pose proof (attach_file_result src resource w data Hsrc Hid Hcwd Hdir Hnodir) as Hfirst.
  fold location in Hfirst.
  set (w1 := set_fs (<[location := File data]> (fs w)) w) in *.
  assert (Hdiff : OS.resolve w src <> location) by (by apply attached_name_differs).
  assert (Hsecond : Epp.attach_file src resource w1 = (Return location, w1)).
  { rewrite (attach_file_result src resource w1 data); try done.
    - unfold w1. cbn. fold location. by rewrite insert_insert_eq.
    - unfold w1. cbn. by rewrite lookup_insert_ne.
    - unfold w1. cbn. rewrite lookup_insert_ne; [done |].
      intros Heq. by rewrite Heq in Hnodir.
    - unfold w1. cbn. fold location. by rewrite lookup_insert_eq. }
  unfold bind. by rewrite Hfirst, Hsecond.
Qed.

Lemma attach_file_twice_witness :
  (Epp.attach_file "/data/report.txt" {| Resource.id := "ABC123" |} ;>
   Epp.attach_file "/data/report.txt" {| Resource.id := "ABC123" |}) Sample.fresh
    = Epp.attach_file "/data/report.txt" {| Resource.id := "ABC123" |} Sample.fresh.
Proof.
  apply (attach_file_twice "/data/report.txt" {| Resource.id := "ABC123" |}
           Sample.fresh "results"); computed.
Defined.

End AttachFileMore.

(** ** [unique_check]: the classes of its errors *)

Section UniqueCheckMore.

(** X5.  Whatever [unique_check] raises is a [ValueError]: both
    [EmptyError] and [NotUniqueError] derive from it, so that one
    [except ValueError] of the caller catches either; neither is an
    [IOError] or an [HTTPError]. *)
Theorem unique_check_raises_ValueError {A} (l : list A) (msg : string) (e : exn) :
  Epp.unique_check l msg = Raise e ->
  is_ValueError e = true /\ is_Exception e = true
  /\ is_IOError e = false /\ is_HTTPError e = false.
Proof.
  destruct (unique_check_cases l msg) as [[_ ->]|[[_ ->]|[_ ->]]];
    intros H; simplify_eq; done.
Qed.

Lemma unique_check_raises_ValueError_witness :
  is_ValueError (NotUniqueError "Multiple items found for sample") = true
  /\ is_Exception (NotUniqueError "Multiple items found for sample") = true
  /\ is_IOError (NotUniqueError "Multiple items found for sample") = false
  /\ is_HTTPError (NotUniqueError "Multiple items found for sample") = false.
Proof.
  apply (unique_check_raises_ValueError [1%nat; 2%nat] "sample"). reflexivity.
Defined.

End UniqueCheckMore.

(** ** [StreamToLogger.write]: whitespace, threshold, lines *)

Section WriteMore.
Import PyStr Spec Cover.

Lemma rstrip_all_space (s : string) : all_space s = true -> rstrip s = EmptyString.
Proof.
  induction s as [|c s IH]; [done |]. simpl.
  intros H. apply andb_true_iff in H as [Hc Hs]. by rewrite (IH Hs), Hc.
Qed.

Lemma rstrip_app_space (s ws : string) :
  all_space ws = true -> rstrip (s +:+ ws) = rstrip s.
Proof.
  intros Hws. induction s as [|c s IH].
  - rewrite str_app_empty_l. by apply rstrip_all_space.
  - rewrite str_app_cons. simpl. by rewrite IH.
Qed.

(** X6.  Whitespace at the end of the buffer makes no difference to
    [write]: with or without it, the same records are made. *)
Theorem write_ignores_trailing_whitespace (self : StreamToLogger) (buf ws : string) :
  all_space ws = true ->
  Epp.write self (buf +:+ ws) = Epp.write self buf.
Proof.
  intros Hws. unfold Epp.write. by rewrite rstrip_app_space.
Qed.

Lemma write_ignores_trailing_whitespace_witness :
  Epp.write Sample.stdout_capture ("done" +:+ (" " +:+ Sample.LF +:+ Sample.LF))
    = Epp.write Sample.stdout_capture "done".
Proof.
  apply (write_ignores_trailing_whitespace Sample.stdout_capture "done"
           (" " +:+ Sample.LF +:+ Sample.LF)).
  reflexivity.
Defined.

Lemma log_below_threshold (name : string) (lvl : Z) (msg : string) (w : world) :
  lvl < root_level w ->
  Logging.log name lvl msg w =
    (Return tt, add_call {| call_name := name; call_level := lvl; call_msg := msg |} w).
Proof.
  intros Hlvl.
  unfold Logging.log, Logging.isEnabledFor, bind, read, update, ret.
  cbn [root_level add_call].
  replace (root_level w <=? lvl) with false by (symmetry; apply Z.leb_gt; lia).
  by rewrite andb_false_r.
Qed.

Lemma for_each_log_below_threshold (name : string) (lvl : Z) (msgs : list string)
    (w : world) :
  lvl < root_level w ->
  exists w',
    for_each msgs (fun m => Logging.log name lvl m) w = (Return tt, w')
    /\ fs w' = fs w /\ written w' = written w /\ root_level w' = root_level w
    /\ calls w' = calls w ++
         map (fun m => {| call_name := name; call_level := lvl; call_msg := m |}) msgs.
Proof.
  revert w. induction msgs as [|m msgs IH]; intros w Hlvl.
  - exists w. simpl. by rewrite app_nil_r.
  - simpl. unfold bind. rewrite (log_below_threshold _ _ _ _ Hlvl).
    destruct (IH (add_call {| call_name := name; call_level := lvl; call_msg := m |} w) Hlvl)
      as (w' & -> & Hfs & Hwr & Hl & Hc).
    exists w'. split; [done |]. split; [done |]. split; [done |]. split; [done |].
    rewrite Hc. cbn. by rewrite <- app_assoc.
Qed.

(** X7.  A captured stream whose level is below the threshold of the
    root logger reaches no file and no stream: [write] returns, and all
    that is left of the text is the calls it made.  Thus with
    [EppLogger(level=logging.WARNING)] what is written to [sys.stdout]
    never gets into the log. *)
Theorem write_below_threshold (self : StreamToLogger) (buf : string) (w : world) :
  log_level self < root_level w ->
  exists w',
    Epp.write self buf w = (Return tt, w')
    /\ fs w' = fs w /\ written w' = written w
    /\ calls w' = calls w ++ map (record_of_line self) (splitlines (rstrip buf)).
Proof.
  intros Hlvl. unfold Epp.write.
  rewrite <- (for_each_map rstrip (splitlines (rstrip buf))
                (fun m => Logging.log (logger self) (log_level self) m)).
  destruct (for_each_log_below_threshold (logger self) (log_level self)
              (map rstrip (splitlines (rstrip buf))) w Hlvl)
    as (w' & Hrun & Hfs & Hwr & _ & Hc).
  exists w'. split; [done |]. split; [done |]. split; [done |].
  by rewrite Hc, map_map.
Qed.

Lemma write_below_threshold_witness :
  exists w',
    Epp.write Sample.stdout_capture "progress" Cases.warnings_only = (Return tt, w')
    /\ fs w' = fs Cases.warnings_only /\ written w' = written Cases.warnings_only
    /\ calls w' = calls Cases.warnings_only ++
         map (record_of_line Sample.stdout_capture) (splitlines (rstrip "progress")).
Proof.
  apply (write_below_threshold Sample.stdout_capture "progress" Cases.warnings_only).
  reflexivity.
Defined.

Lemma rstrip_idempotent (s : string) : rstrip (rstrip s) = rstrip s.
Proof.
  induction s as [|c s IH]; [done |]. simpl.
  destruct (rstrip s) as [|c' r] eqn:E.
  - destruct (isspace c) eqn:Hc; [done |]. simpl. by rewrite Hc.
  - simpl in *. by rewrite IH.
Qed.

Lemma rstrip_app_nonblank (a b : string) :
  rstrip b <> EmptyString -> rstrip (a +:+ b) = a +:+ rstrip b.
Proof.
  intros Hb. induction a as [|c a IH]; [done |].
  rewrite !str_app_cons. simpl. rewrite IH.
  destruct (a +:+ rstrip b) as [|x r] eqn:E; [| done].
  destruct a; [by rewrite str_app_empty_l in E | by rewrite str_app_cons in E].
Qed.

Lemma splitlines_first_line (a s : string) :
  has_linebreak a = false ->
  splitlines (a +:+ String "010" s) = a :: splitlines s.
Proof.
  intros Ha. induction a as [|c a IH].
  - rewrite str_app_empty_l. by destruct s.
  - simpl in Ha. apply orb_false_iff in Ha as [Hc Ha].
    rewrite str_app_cons.
    change (splitlines (String c (a +:+ String "010" s)))
      with (if islinebreak c then
              EmptyString ::
                match a +:+ String "010" s with
                | String c' rest' =>
                    if (code c =? 13) && (code c' =? 10)
                    then splitlines rest' else splitlines (a +:+ String "010" s)
                | EmptyString => []
                end
            else match splitlines (a +:+ String "010" s) with
                 | [] => [String c EmptyString]
                 | l :: ls => String c l :: ls
                 end).
    by rewrite Hc, (IH Ha).
Qed.

Lemma splitlines_one_line (s : string) :
  has_linebreak s = false -> s <> EmptyString -> splitlines s = [s].
Proof.
  induction s as [|c s IH]; [done |]. intros H _.
  simpl in H. apply orb_false_iff in H as [Hc Hs]. simpl. rewrite Hc.
  destruct s as [|c' s']; [done |]. by rewrite IH.
Qed.

(** X8.  Lines do not depend on how they are handed over: writing two
    lines that hold something in one buffer, with a newline between
    them, does what writing the one and then the other does. *)
Theorem write_two_lines (self : StreamToLogger) (a b : string) (w : world) :
  has_linebreak a = false -> has_linebreak b = false ->
  rstrip a <> EmptyString -> rstrip b <> EmptyString ->
  Epp.write self (a +:+ String "010" b) w = (Epp.write self a ;> Epp.write self b) w.
Proof.
  intros Ha Hb Hna Hnb. unfold Epp.write.
  assert (Hbuf : rstrip (a +:+ String "010" b) = a +:+ String "010" (rstrip b)).
  { rewrite rstrip_app_nonblank.
    - f_equal. change (String "010" b) with (String "010" EmptyString +:+ b).
      by rewrite rstrip_app_nonblank.
    - change (String "010" b) with (String "010" EmptyString +:+ b).
      by rewrite rstrip_app_nonblank. }
  rewrite Hbuf, (splitlines_first_line _ _ Ha).
  rewrite (splitlines_one_line (rstrip b)), (splitlines_one_line (rstrip a));
    try done; try (by apply rstrip_keeps_linebreak_free).
  simpl. rewrite !rstrip_idempotent. unfold bind, ret.
  destruct (Logging.log (logger self) (log_level self) (rstrip a) w) as [[[]|e] w1];
    [| done].
  by destruct (Logging.log (logger self) (log_level self) (rstrip b) w1) as [[[]|e] w2].
Qed.

Lemma write_two_lines_witness :
  Epp.write Sample.stdout_capture ("first" +:+ String "010" "second") Sample.inside_block
    = (Epp.write Sample.stdout_capture "first" ;> Epp.write Sample.stdout_capture "second")
        Sample.inside_block.
Proof.
  apply (write_two_lines Sample.stdout_capture "first" "second" Sample.inside_block);
    computed.
Defined.

Lemma only_grown_refl (w : world) : only_grown w w.
Proof.
  intros p. destruct (fs w !! p) as [[data|]|] eqn:E; try done.
  exists EmptyString. by rewrite str_app_empty_r.
Qed.

Lemma only_grown_trans (w1 w2 w3 : world) :
  only_grown w1 w2 -> only_grown w2 w3 -> only_grown w1 w3.
Proof.
  intros H12 H23 p. specialize (H12 p). specialize (H23 p).
  destruct (fs w1 !! p) as [[data|]|]; try done.
  - destruct H12 as [m1 H12]. rewrite H12 in H23. destruct H23 as [m2 H23].
    exists (m1 +:+ m2). by rewrite <- str_app_assoc.
  - by rewrite H12 in H23.
Qed.

Lemma only_grown_same_fs (w w' : world) : fs w' = fs w -> only_grown w w'.
Proof.
  intros Hfs p. rewrite Hfs. destruct (fs w !! p) as [[data|]|] eqn:E; try done.
  exists EmptyString. by rewrite str_app_empty_r.
Qed.

Lemma emit_only_grows (c : log_call) (h : handler) (w : world) :
  only_grown w (snd (Logging.emit c h w)).
Proof.
  unfold Logging.emit, OS.append_to, bind, read, update.
  destruct h as [key f|s f]; cbn -[Logging.format_record];
    [| by apply only_grown_same_fs].
  destruct (fs w !! key) as [[data|]|] eqn:Hkey; try apply only_grown_refl.
  intros p. cbn -[Logging.format_record].
  destruct (decide (p = key)) as [->|Hp].
  - rewrite Hkey, lookup_insert_eq. eauto.
  - rewrite lookup_insert_ne by done.
    destruct (fs w !! p) as [[d|]|]; try done.
    exists EmptyString. by rewrite str_app_empty_r.
Qed.

Lemma for_each_only_grows {A} (xs : list A) (body : A -> M unit) :
  (forall x w, only_grown w (snd (body x w))) ->
  forall w, only_grown w (snd (for_each xs body w)).
Proof.
  intros Hbody. induction xs as [|x xs IH]; intros w; simpl.
  - apply only_grown_refl.
  - unfold bind. specialize (Hbody x w).
    destruct (body x w) as [[[]|e] w1]; simpl in *; [| done].
    eapply only_grown_trans; [exact Hbody | apply IH].
Qed.

Lemma log_only_grows (name : string) (lvl : Z) (msg : string) (w : world) :
  only_grown w (snd (Logging.log name lvl msg w)).
Proof.
  unfold Logging.log, Logging.isEnabledFor, Logging.callHandlers.
  unfold bind at 1, update at 1. unfold bind at 1, read at 1.
  set (c := {| call_name := name; call_level := lvl; call_msg := msg |}).
  set (w1 := add_call c w).
  assert (H1 : only_grown w w1) by (by apply only_grown_same_fs).
  destruct ((0 <? lvl) && (root_level w1 <=? lvl)); [| exact H1].
  eapply only_grown_trans; [exact H1 |].
  unfold bind, read. destruct (root_handlers w1) as [|h hs] eqn:Hhs.
  - destruct (Logging.WARNING <=? call_level c); cbn;
      by apply only_grown_same_fs.
  - apply for_each_only_grows. intros h' w'. apply emit_only_grows.
Qed.

(** X9.  Logging through a captured stream only ever appends: after
    [write], whatever the handlers of the root logger are, every file is
    still there and begins with what it held before, and every
    directory is still a directory. *)
Theorem write_only_appends (self : StreamToLogger) (buf : string) (w : world) :
  only_grown w (snd (Epp.write self buf w)).
Proof.
  unfold Epp.write. apply for_each_only_grows.
  intros line w'. apply log_only_grows.
Qed.

End WriteMore.

(** ** [EppLogger.__init__]: when it fails, and what it finds configured *)

Section InitMore.
Import PyStr PosixPath Spec Cover.

(** X10.  [__init__] binds the streams last: when it raises, be it in
    [prepend_old_log] or in opening the log file, [sys.stdout] and
    [sys.stderr] are what they were, and so is the rest of the
    environment of the process. *)
Theorem init_failure_leaves_streams (log_file : string) (level : Z) (lims : option Lims)
    (prepend : bool) (w w' : world) (e : exn) :
  Epp.__init__ log_file level lims prepend w = (Raise e, w') ->
  sys_stdout w' = sys_stdout w /\ sys_stderr w' = sys_stderr w /\ same_env w w'.
Proof.
  unfold Epp.__init__. intros H.
  assert (He : same_env w w'); [| split; [apply He | split; [apply He | exact He]]].
  unfold bind at 1 in H.
  assert (H1 : same_env w
                 (snd ((if prepend then Epp.prepend_old_log lims log_file else ret tt) w))).
  { destruct prepend; [apply keeps_env_prepend_old_log | apply keeps_env_ret]. }
  destruct ((if prepend then Epp.prepend_old_log lims log_file else ret tt) w)
    as [[[]|e1] wa]; simpl in H1; [| by injection H as <- <-].
  unfold bind at 1 in H.
  pose proof (keeps_env_basicConfig (Some level) EPP_FORMAT (Some log_file) wa) as H2.
  destruct (Logging.basicConfig (Some level) EPP_FORMAT (Some log_file) wa)
    as [[[]|e2] wb]; simpl in H2.
  - run. discriminate.
  - injection H as <- <-. eapply same_env_trans; eauto.
Qed.

Lemma init_failure_leaves_streams_witness :
  sys_stdout Sample.fresh = sys_stdout Sample.fresh
  /\ sys_stderr Sample.fresh = sys_stderr Sample.fresh
  /\ same_env Sample.fresh Sample.fresh.
Proof.
  apply (init_failure_leaves_streams "missing/run.log" Logging.INFO None false
           Sample.fresh Sample.fresh
           (IOError "No such file or directory: missing/run.log")).
  computed.
Defined.



(** X12.  On a root logger that has a handler already, [__init__]
    configures nothing: [logging.basicConfig] leaves handlers and level
    as they are, so that neither the log file nor the level given to
    the constructor comes into play, and no file is created.  All that
    [__init__] does is bind the two streams. *)
Theorem init_on_configured_logger (log_file : string) (level : Z) (lims : option Lims)
    (w : world) :
  root_handlers w <> [] ->
  exists manager w0,
    Epp.__init__ log_file level lims false w = (Return manager, w0)
    /\ w0 = set_sys_stderr (Captured (StreamToLogger_init "STDERR" Logging.ERROR))
              (set_sys_stdout (Captured (StreamToLogger_init "STDOUT" Logging.INFO)) w)
    /\ fs w0 = fs w /\ root_handlers w0 = root_handlers w /\ root_level w0 = root_level w
    /\ Epp.saved_stdout manager = sys_stdout w /\ Epp.saved_stderr manager = sys_stderr w.
Proof.
  intros Hh.
  unfold Epp.__init__, Logging.basicConfig. unfold bind, ret, read, update.
  destruct (root_handlers w) as [|h hs] eqn:E; [done |].
  eexists _, _. split; [reflexivity |]. by repeat split.
Qed.

Lemma init_on_configured_logger_witness :
  exists manager w0,
    Epp.__init__ "second.log" Logging.DEBUG None false Cases.configured
      = (Return manager, w0)
    /\ fs w0 !! "/work/second.log" = None
    /\ root_handlers w0 = [FileHandler "/work/first.log" EPP_FORMAT]
    /\ root_level w0 = Logging.INFO.
Proof.
  destruct (init_on_configured_logger "second.log" Logging.DEBUG None Cases.configured)
    as (manager & w0 & H1 & _ & H3 & H4 & H5 & _); [discriminate |].
  exists manager, w0. split; [exact H1 |]. split; [by rewrite H3 |].
  split; [by rewrite H4 | by rewrite H5].
Defined.

(** X13.  After the warning about a missing artifact the log file is
    out of play.  On a root logger without handlers,
    [logging.warning] installs the handler on [sys.stderr] of
    [logging.basicConfig()], and the [basicConfig] of [__init__] then
    finds the root logger configured: [__init__] returns with that one
    handler, with the level the root logger had, and without having
    created or touched any file. *)
Theorem init_after_missing_artifact (log_file : string) (level : Z) (lims : option Lims)
    (w : world) (e : exn) :
  root_handlers w = [] ->
  fst (Artifact_files lims log_file w) = Raise e ->
  is_HTTPError e = true ->
  exists manager w0,
    Epp.__init__ log_file level lims true w = (Return manager, w0)
    /\ root_handlers w0 = [StreamHandler (sys_stderr w) BASIC_FORMAT]
    /\ root_level w0 = root_level w
    /\ fs w0 = fs w
    /\ written w0 = written w ++
         (if (root_level w <=? Logging.WARNING)
          then [(sys_stderr w,
                 "WARNING:root:No log file artifact found for id: " +:+ log_file
                   +:+ Logging.newline)]
          else []).
Proof.
  intros Hh Hlookup Hhttp.
  unfold Epp.__init__. unfold bind at 1.
  rewrite (prepend_lookup_raises _ _ _ _ Hlookup), Hhttp.
  destruct w as [fs0 cwd0 base0 dists0 now0 out0 err0 hs0 lvl0 down0 written0 calls0].
  cbn in Hh. subst hs0.
  unfold Logging.warning, Logging.root_log, Logging.basicConfig, Logging.log,
    Logging.isEnabledFor, Logging.callHandlers, Logging.emit.
  unfold bind, ret, read, update. cbn -[Logging.format_record Z.leb].
  change (0 <? Logging.WARNING) with true. cbn -[Logging.format_record Z.leb].
  destruct (lvl0 <=? Logging.WARNING) eqn:Hlvl;
    cbn -[Logging.format_record Z.leb];
    (eexists _, _; split; [reflexivity |]); cbn -[Logging.format_record Z.leb];
    repeat split; try done.
  by rewrite app_nil_r.
Qed.

Lemma init_after_missing_artifact_witness :
  exists manager w0,
    Epp.__init__ "run.log" Logging.INFO (Some Sample.lims_server_error) true Sample.fresh
      = (Return manager, w0)
    /\ root_handlers w0 = [StreamHandler (Console Stderr) BASIC_FORMAT]
    /\ root_level w0 = Logging.WARNING
    /\ fs w0 !! "/work/run.log" = None.
Proof.
  destruct (init_after_missing_artifact "run.log" Logging.INFO
              (Some Sample.lims_server_error) Sample.fresh (HTTPError 500))
    as (manager & w0 & H1 & H2 & H3 & H4 & _); [reflexivity .. |].
  exists manager, w0. split; [exact H1 |]. split; [exact H2 |]. split; [exact H3 |].
  by rewrite H4.
Defined.

End InitMore.

(** ** [__enter__] and [__exit__]: what gets into the log, what stays bound *)

Section EnterExitMore.
Import PyStr PosixPath Spec Cover.

(** X14.  After a block that raised, the streams stay captured, so
    that what is then written to [sys.stderr] (the traceback, say)
    still goes to the log: on a root logger that writes to the log
    file, [__exit__] with an exception, followed by a write to
    [sys.stderr], appends one [ERROR] record under [STDERR] for each
    line written. *)
Theorem exit_with_exception_keeps_capturing (self : Epp.EppLogger) (e : exn)
    (target : string) (level : Z) (base : gmap string node) (content text : string)
    (w : world) :
  logs_to target level base content w ->
  sys_stderr w = Captured (StreamToLogger_init "STDERR" Logging.ERROR) ->
  exists w',
    (Epp.__exit__ self (Some e) ;> sys_write (Stderr, text)) w = (Return tt, w')
    /\ logs_to target level base
         (content +:+ rendered level (now w)
            (map (record_of_line (StreamToLogger_init "STDERR" Logging.ERROR))
               (splitlines (rstrip text)))) w'
    /\ sys_stderr w' = sys_stderr w /\ shut_down w' = shut_down w.
Proof.
  intros Hinv Herr.
  destruct (write_appends target level base w
              (StreamToLogger_init "STDERR" Logging.ERROR) text content w Hinv
              (same_env_refl w))
    as (w' & Hrun & Hinv' & He').
  exists w'. split; [| split; [exact Hinv' | split; apply He']].
  unfold bind. rewrite exit_runs. unfold sys_write, bind, read. cbn [fst snd].
  rewrite Herr. exact Hrun.
Qed.

Lemma exit_with_exception_keeps_capturing_witness :
  exists w',
    (Epp.__exit__ Sample.manager (Some (ValueError "no such sample")) ;>
     sys_write (Stderr, "ValueError: no such sample")) Cases.captured = (Return tt, w')
    /\ fs w' !! "/work/first.log" =
         Some (File ("first"
                     +:+ "2013-05-05 10:00:00,000:ERROR:STDERR:ValueError: no such sample"
                     +:+ Sample.LF)).
Proof.
  destruct (exit_with_exception_keeps_capturing Sample.manager
              (ValueError "no such sample") "/work/first.log" Logging.INFO Sample.files
              "first" "ValueError: no such sample" Cases.captured)
    as (w' & H1 & (_ & _ & H2) & _).
  - split; [reflexivity |]. split; reflexivity.
  - reflexivity.
  - exists w'. split; [exact H1 |]. rewrite H2. apply lookup_insert_eq.
Defined.

(** X15.  On a root logger that writes to the log file and lets
    [INFO] through, [__enter__] adds exactly one line to the file, in
    the format that [__init__] set: time, [INFO], [root] and the
    version of the package, with colons between them. *)
Theorem enter_writes_version_line (self : Epp.EppLogger) (target : string) (level : Z)
    (base : gmap string node) (content version : string) (w : world) :
  logs_to target level base content w ->
  level <= Logging.INFO ->
  distributions w !! Epp.PACKAGE = Some version ->
  exists w',
    Epp.__enter__ self w = (Return self, w')
    /\ fs w' = <[target := File (content +:+ now w +:+ ":INFO:root:Version: " +:+ version
                                  +:+ Logging.newline)]> base.
Proof.
  intros Hinv Hlevel Hdist.
  destruct (log_appends target level base w "root" Logging.INFO
              ("Version: " +:+ version) content w Hinv (same_env_refl w))
    as (w' & Hlog & (_ & _ & Hfs) & _).
  exists w'. split.
  - unfold Epp.__enter__, try_except, lift, require_version, Logging.info,
      Logging.root_log.
    unfold bind at 1. unfold bind at 1. rewrite Hdist.
    unfold bind at 1, read at 1.
    destruct Hinv as (Hh & _). rewrite Hh.
    unfold bind at 1, ret at 1. rewrite Hlog. reflexivity.
  - rewrite Hfs. unfold rendered, passes. cbn [call_level].
    replace (level <=? Logging.INFO) with true by (symmetry; apply Z.leb_le; lia).
    cbn. by rewrite str_app_empty_r.
Qed.

Lemma enter_writes_version_line_witness :
  exists w',
    Epp.__enter__ Sample.manager Cases.configured = (Return Sample.manager, w')
    /\ fs w' !! "/work/first.log" =
         Some (File ("first" +:+ "2013-05-05 10:00:00,000:INFO:root:Version: 0.3.1"
                     +:+ Sample.LF)).
Proof.
  destruct (enter_writes_version_line Sample.manager "/work/first.log" Logging.INFO
              Sample.files "first" "0.3.1" Cases.configured)
    as (w' & H1 & H2).
  - split; [reflexivity |]. split; reflexivity.
  - discriminate.
  - reflexivity.
  - exists w'. split; [exact H1 |]. rewrite H2. apply lookup_insert_eq.
Defined.

(** [__init__] leaves the streams captured. *)
Lemma init_captures_streams (log_file : string) (level : Z) (lims : option Lims)
    (prepend : bool) (w w0 : world) (manager : Epp.EppLogger) :
  Epp.__init__ log_file level lims prepend w = (Return manager, w0) ->
  sys_stdout w0 = Captured (StreamToLogger_init "STDOUT" Logging.INFO)
  /\ sys_stderr w0 = Captured (StreamToLogger_init "STDERR" Logging.ERROR).
Proof.
  unfold Epp.__init__. intros H.
  apply bind_returns in H as (? & wa & Ha & H).
  apply bind_returns in H as (? & wb & Hb & H).
  run. simplify_eq. simpl. by split.
Qed.

(** [__enter__] without the metadata of the package. *)
Lemma enter_exits (self : Epp.EppLogger) (w : world) :
  distributions w !! Epp.PACKAGE = None ->
  exists w', Epp.__enter__ self w = (Raise (SystemExit (-1)), w') /\ same_env w w'.
Proof.
  intros Hd.
  unfold Epp.__enter__, try_except, lift, require_version, bind, Logging.error.
  cbv beta. rewrite Hd.
  cbv beta iota zeta. unfold is_DistributionNotFound. cbv beta iota zeta.
  destruct (root_log_returns Logging.ERROR
              (str_of_exn (DistributionNotFound Epp.PACKAGE)) w) as (w1 & Hrun1 & He1 & _).
  destruct (root_log_returns Logging.ERROR
              ("Make sure you have the " +:+ Epp.PACKAGE +:+ " package installed") w1)
    as (w2 & Hrun2 & He2 & _).
  exists w2. rewrite Hrun1. cbv beta iota zeta. rewrite Hrun2. cbv beta iota zeta.
  split; [done | eapply same_env_trans; eauto].
Qed.

(** X16.  When the metadata of the package are missing, the [with]
    statement ends in [SystemExit(-1)] before the block is entered:
    the block plays no part in the outcome.  [__exit__] is not called
    either, so that the streams that [__init__] has bound stay
    captured and logging is not shut down. *)
Theorem with_exit_in_enter_skips_block {A} (log_file : string) (level : Z)
    (lims : option Lims) (prepend : bool) (block : Epp.EppLogger -> M A)
    (w w0 : world) (manager : Epp.EppLogger) :
  Epp.__init__ log_file level lims prepend w = (Return manager, w0) ->
  distributions w0 !! Epp.PACKAGE = None ->
  exists w1,
    Epp.with_EppLogger log_file level lims prepend block w = (Raise (SystemExit (-1)), w1)
    /\ Epp.__enter__ manager w0 = (Raise (SystemExit (-1)), w1)
    /\ sys_stdout w1 = Captured (StreamToLogger_init "STDOUT" Logging.INFO)
    /\ sys_stderr w1 = Captured (StreamToLogger_init "STDERR" Logging.ERROR)
    /\ shut_down w1 = shut_down w0.
Proof.
  intros Hinit Hd.
  destruct (init_captures_streams _ _ _ _ _ _ _ Hinit) as [Hout Herr].
  destruct (enter_exits manager w0 Hd) as (w1 & Henter & He).
  exists w1. split; [| split; [exact Henter |]].
  - unfold Epp.with_EppLogger. unfold bind at 1. rewrite Hinit.
    unfold bind at 1. by rewrite Henter.
  - destruct He as (_ & _ & _ & _ & Hso & Hse & Hsd). by rewrite Hso, Hse, Hsd.
Qed.

Lemma with_exit_in_enter_skips_block_witness :
  exists w1,
    Epp.with_EppLogger "run.log" Logging.INFO None false Sample.failing_block
      Sample.broken_install = (Raise (SystemExit (-1)), w1)
    /\ sys_stdout w1 = Captured (StreamToLogger_init "STDOUT" Logging.INFO)
    /\ sys_stderr w1 = Captured (StreamToLogger_init "STDERR" Logging.ERROR).
Proof.
  destruct (with_exit_in_enter_skips_block "run.log" Logging.INFO None false
              Sample.failing_block Sample.broken_install
              (snd (Epp.__init__ "run.log" Logging.INFO None false Sample.broken_install))
              Sample.manager)
    as (w1 & H1 & _ & H3 & H4 & _); [computed .. |].
  exists w1. split; [exact H1 |]. split; [exact H3 | exact H4].
Defined.

End EnterExitMore.

(** ** The path of the old log *)

Section LocalPathMore.
Import PyStr PosixPath Spec Cover.

Lemma split_scan_skips (sep x cur rest : string) :
  split_scan sep (String.length x) cur (x +:+ rest) = split_scan sep O cur rest.
Proof.
  induction x as [|c x IH]; [done |].
  rewrite str_app_cons. simpl. exact IH.
Qed.

Lemma split_scan_before (c : ascii) (sep' pre cur s : string) :
  has_char c pre = false ->
  split_scan (String c sep') O cur (pre +:+ s)
    = split_scan (String c sep') O (cur +:+ pre) s.
Proof.
  revert cur. induction pre as [|x pre IH]; intros cur Hpre.
  - by rewrite str_app_empty_l, str_app_empty_r.
  - simpl in Hpre. apply orb_false_iff in Hpre as [Hx Hpre].
    rewrite str_app_cons.
    change (split_scan (String c sep') O cur (String x (pre +:+ s)))
      with (if (if Ascii.eqb c x then startswith sep' (pre +:+ s) else false)
            then cur :: split_scan (String c sep') (Nat.pred (String.length (String c sep')))
                          EmptyString (pre +:+ s)
            else split_scan (String c sep') O (cur +:+ String x EmptyString) (pre +:+ s)).
    rewrite Ascii.eqb_sym, Hx. rewrite (IH _ Hpre).
    by rewrite str_app_assoc.
Qed.

(** A separator that occurs once, after a prefix without its first
    character, splits the string in two. *)
Lemma split_around (c : ascii) (sep' pre post : string) :
  has_char c pre = false ->
  contains (String c sep') post = false ->
  split (String c sep') (pre +:+ String c sep' +:+ post) = Some [pre; post].
Proof.
  intros Hpre Hpost. unfold split. cbn [is_empty]. f_equal.
  rewrite (split_scan_before _ _ _ _ _ Hpre). rewrite str_app_empty_l.
  rewrite str_app_cons.
  change (split_scan (String c sep') O pre (String c (sep' +:+ post)))
    with (if startswith (String c sep') (String c (sep' +:+ post))
          then pre :: split_scan (String c sep') (String.length sep') EmptyString
                        (sep' +:+ post)
          else split_scan (String c sep') O (pre +:+ String c EmptyString) (sep' +:+ post)).
  rewrite <- str_app_cons, startswith_app.
  rewrite split_scan_skips, (split_scan_absent _ _ _ Hpost).
  by rewrite str_app_empty_l.
Qed.

(** X17.  The translation of a content location into a local path
    strips what it is meant to strip: when the location is a prefix
    (the scheme), the authority part of the base URI and a path, with
    the first character of the authority absent from the prefix and
    the authority absent from the path, the result is the path. *)
Theorem local_path_strips_prefix (w : world) (parts : list string) (c : ascii)
    (rest prefix path : string) :
  split ":" (BASEURI w) = Some parts ->
  parts !! 1%nat = Some (String c rest) ->
  has_char c prefix = false ->
  contains (String c rest) path = false ->
  Epp.local_path (prefix +:+ String c rest +:+ path) w = (Return path, w).
Proof.
  intros Hparts Hauth Hprefix Hpath.
  unfold Epp.local_path, bind, read, str_split, subscript, ret, raise.
  rewrite Hparts. cbv beta iota zeta. rewrite Hauth. cbv beta iota zeta.
  rewrite (split_around _ _ _ _ Hprefix Hpath). reflexivity.
Qed.

Lemma local_path_strips_prefix_witness :
  Epp.local_path ("sftp:" +:+ "//lims.example.org" +:+ "/home/glsftp/old.log") Sample.fresh
    = (Return "/home/glsftp/old.log", Sample.fresh).
Proof.
  apply (local_path_strips_prefix Sample.fresh ["https"; "//lims.example.org"; "8443"]
           "/"%char "/lims.example.org" "sftp:" "/home/glsftp/old.log"); reflexivity.
Defined.

(** X18.  A base URI without a colon makes every prepending fail: for
    any artifact that has a file, [BASEURI.split(':')[1]] raises
    [IndexError], which no handler of [prepend_old_log] catches; nothing
    is logged and nothing is copied. *)
Theorem prepend_with_base_without_colon (remote : Lims) (log_file : string) (w : world)
    (location : string) (others : list string) :
  remote log_file = Return (location :: others) ->
  contains ":" (BASEURI w) = false ->
  Epp.prepend_old_log (Some remote) log_file w = (Raise IndexError, w).
Proof.
  intros Hremote Hbase.
  unfold Epp.prepend_old_log, try_except, bindL, lift, assign, Artifact_files.
  rewrite Hremote. cbv beta iota zeta.
  unfold Epp.local_path, bind, read, str_split, subscript, ret, raise.
  rewrite (split_absent ":" (BASEURI w) eq_refl Hbase). reflexivity.
Qed.

Lemma prepend_with_base_without_colon_witness :
  Epp.prepend_old_log (Some Sample.lims_with_log) "run.log" Cases.no_colon
    = (Raise IndexError, Cases.no_colon).
Proof.
  apply (prepend_with_base_without_colon Sample.lims_with_log "run.log" Cases.no_colon
           "sftp://lims.example.org/home/glsftp/old.log" []); reflexivity.
Defined.

(** X19.  A base URI whose only colon is its last character leaves the
    empty string as the authority part, and [split] refuses an empty
    separator: for any artifact that has a file, [prepend_old_log]
    raises [ValueError], again with nothing logged and nothing copied. *)
Theorem prepend_with_base_ending_in_colon (remote : Lims) (log_file : string) (w : world)
    (location : string) (others : list string) (host : string) :
  remote log_file = Return (location :: others) ->
  BASEURI w = host +:+ ":" ->
  has_char ":" host = false ->
  Epp.prepend_old_log (Some remote) log_file w
    = (Raise (ValueError "empty separator"), w).
Proof.
  intros Hremote Hbase Hhost.
  unfold Epp.prepend_old_log, try_except, bindL, lift, assign, Artifact_files.
  rewrite Hremote. cbv beta iota zeta.
  unfold Epp.local_path, bind, read, str_split, subscript, ret, raise.
  rewrite Hbase.
  change (host +:+ ":") with (host +:+ String ":" EmptyString +:+ EmptyString).
  rewrite (split_around ":" EmptyString host EmptyString Hhost eq_refl). reflexivity.
Qed.

Lemma prepend_with_base_ending_in_colon_witness :
  Epp.prepend_old_log (Some Sample.lims_with_log) "run.log" Cases.colon_last
    = (Raise (ValueError "empty separator"), Cases.colon_last).
Proof.
  apply (prepend_with_base_ending_in_colon Sample.lims_with_log "run.log" Cases.colon_last
           "sftp://lims.example.org/home/glsftp/old.log" [] "lims.example.org");
    reflexivity.
Defined.

(** X20.  The handler for [IOError] counts on the copy having been
    reached.  When it is the lookup of the artifact that raises an
    [IOError] (one that is not an [HTTPError]), the local [log_path] is
    still unbound when the handler formats its message: the caller gets
    an [UnboundLocalError] in the place of the error of the lookup, and
    nothing is logged. *)
Theorem prepend_lookup_IOError (lims : option Lims) (log_file : string) (w : world)
    (e : exn) :
  fst (Artifact_files lims log_file w) = Raise e ->
  is_HTTPError e = false ->
  is_IOError e = true ->
  Epp.prepend_old_log lims log_file w = (Raise (UnboundLocalError "log_path"), w).
Proof.
  intros Hlookup Hhttp Hio.
  by rewrite (prepend_lookup_raises _ _ _ _ Hlookup), Hhttp, Hio.
Qed.

Lemma prepend_lookup_IOError_witness :
  Epp.prepend_old_log (Some (fun _ => Raise (IOError "Connection refused"))) "run.log"
    Sample.fresh
    = (Raise (UnboundLocalError "log_path"), Sample.fresh).
Proof.
  apply (prepend_lookup_IOError (Some (fun _ => Raise (IOError "Connection refused")))
           "run.log" Sample.fresh (IOError "Connection refused")); reflexivity.
Defined.

End LocalPathMore.
